(** * Interview-answer analysis pipeline: metrics, heuristic scorer,
      remote client and orchestrator

    A shallow embedding of [staticAnalysisService.ts] and
    [geminiAnalysisService.ts].

    Conventions of the embedding.
    - A JavaScript string is the list of its UTF-16 code units.
    - A JavaScript Number is a [number]: a finite value (an exact rational;
      the rounding of IEEE arithmetic is not modelled and the two zeros are
      one), or NaN, or one of the two infinities, on which the comparisons of
      the source behave as in IEEE 754.
    - A value that crosses the JSON boundary (the remote answer, the report
      handed back to the caller) is a [jsvalue].
    - The orchestrator and the remote client run in a small monad that carries
      thrown errors and the chronological list of calls made. Console logging
      is left out. *)

From Stdlib Require Import List Bool Arith ZArith NArith QArith Qround Lia.
From Stdlib Require Import Ascii String DecimalString.
Import ListNotations.

Set Implicit Arguments.

Close Scope Q_scope.

(** ** JavaScript numbers *)

Module Num.

Local Open Scope Q_scope.

Inductive number : Type :=
| Fin (q : Q)
| NaN
| PosInf
| NegInf.

Definition Qlt_bool (p q : Q) : bool := negb (Qle_bool q p).

Definition of_Z (z : Z) : number := Fin (inject_Z z).
Definition of_nat (n : nat) : number := of_Z (Z.of_nat n).

(** [a < b]; false as soon as one side is NaN. *)
Definition lt (a b : number) : bool :=
  match a, b with
  | NaN, _ | _, NaN => false
  | Fin p, Fin q => Qlt_bool p q
  | NegInf, NegInf => false
  | NegInf, _ => true
  | PosInf, _ => false
  | Fin _, PosInf => true
  | Fin _, NegInf => false
  end.

(** [a <= b]; false as soon as one side is NaN. *)
Definition le (a b : number) : bool :=
  match a, b with
  | NaN, _ | _, NaN => false
  | Fin p, Fin q => Qle_bool p q
  | NegInf, _ => true
  | _, PosInf => true
  | PosInf, _ => false
  | Fin _, NegInf => false
  end.

(** [a > b] and [a >= b] are the mirrored comparisons. *)
Definition gt (a b : number) : bool := lt b a.
Definition ge (a b : number) : bool := le b a.

Definition opp (a : number) : number :=
  match a with
  | Fin p => Fin (- p)
  | NaN => NaN
  | PosInf => NegInf
  | NegInf => PosInf
  end.

(** The infinity whose sign is that of [p] (zero counts as positive). *)
Definition inf_of_sign (p : Q) : number :=
  if Qlt_bool p 0 then NegInf else PosInf.

Definition add (a b : number) : number :=
  match a, b with
  | NaN, _ | _, NaN => NaN
  | Fin p, Fin q => Fin (p + q)
  | PosInf, NegInf | NegInf, PosInf => NaN
  | PosInf, _ | _, PosInf => PosInf
  | NegInf, _ | _, NegInf => NegInf
  end.

Definition sub (a b : number) : number := add a (opp b).

Definition mul (a b : number) : number :=
  match a, b with
  | NaN, _ | _, NaN => NaN
  | Fin p, Fin q => Fin (p * q)
  | Fin p, i | i, Fin p =>
      if Qeq_bool p 0 then NaN
      else if Qlt_bool p 0 then opp i else i
  | PosInf, PosInf | NegInf, NegInf => PosInf
  | PosInf, NegInf | NegInf, PosInf => NegInf
  end.

Definition div (a b : number) : number :=
  match a, b with
  | NaN, _ | _, NaN => NaN
  | Fin p, Fin q =>
      if Qeq_bool q 0
      then (if Qeq_bool p 0 then NaN else inf_of_sign p)
      else Fin (p / q)
  | Fin _, _ => Fin 0
  | PosInf, Fin q => inf_of_sign q
  | NegInf, Fin q => opp (inf_of_sign q)
  | _, _ => NaN
  end.

(** [Math.round]: the nearest integer, ties towards plus infinity. *)
Definition round (a : number) : number :=
  match a with
  | Fin p => of_Z (Qfloor (p + (1 # 2)))
  | _ => a
  end.

(** [Math.max] and [Math.min] of two arguments. *)
Definition max (a b : number) : number :=
  match a, b with
  | NaN, _ | _, NaN => NaN
  | _, _ => if lt a b then b else a
  end.

Definition min (a b : number) : number :=
  match a, b with
  | NaN, _ | _, NaN => NaN
  | _, _ => if lt b a then b else a
  end.

(** ToBoolean on a Number: zero and NaN are falsy. *)
Definition truthy (a : number) : bool :=
  match a with
  | Fin p => negb (Qeq_bool p 0)
  | NaN => false
  | _ => true
  end.

(** [Math.floor] *)
Definition floor (a : number) : number :=
  match a with
  | Fin p => of_Z (Qfloor p)
  | _ => a
  end.

(** The integer part of a rational, towards zero. *)
Definition Qtrunc (p : Q) : Z :=
  if Qle_bool 0 p then Qfloor p else Qceiling p.

(** [a % b]: the remainder takes the sign of the dividend. *)
Definition rem (a b : number) : number :=
  match a, b with
  | NaN, _ | _, NaN => NaN
  | PosInf, _ | NegInf, _ => NaN
  | Fin p, Fin q =>
      if Qeq_bool q 0 then NaN
      else Fin (p - q * inject_Z (Qtrunc (p / q)))
  | Fin _, _ => a
  end.

(** [isNaN] on a Number. *)
Definition isNaN (a : number) : bool :=
  match a with
  | NaN => true
  | _ => false
  end.

End Num.

Export Num.

Declare Scope num_scope.
Delimit Scope num_scope with num.
Bind Scope num_scope with number.

(** Integer literals of the source read as Numbers in [num_scope]. *)
Definition number_to_Z (a : number) : option Z :=
  match a with
  | Fin (Qmake z 1) => Some z
  | _ => None
  end.

Number Notation number Num.of_Z number_to_Z : num_scope.

(** ** JavaScript strings *)

Module Str.

(** A UTF-16 code unit, and a string as the list of its code units. *)
Definition unit16 := N.
Definition jsstring := list unit16.

(** An ASCII literal of the source. *)
Definition lit (s : string) : jsstring :=
  map N_of_ascii (list_ascii_of_string s).

Definition eqb (s t : jsstring) : bool :=
  if list_eq_dec N.eq_dec s t then true else false.

(** The class [\s] of a regular expression, which is also what [trim]
    removes: WhiteSpace and LineTerminator of ECMAScript. *)
Definition is_space (c : unit16) : bool :=
  ((9 <=? c) && (c <=? 13)          (* TAB LF VT FF CR *)
   || (c =? 32)                     (* SPACE *)
   || (c =? 160)                    (* NO-BREAK SPACE *)
   || (c =? 5760)                   (* U+1680 *)
   || ((8192 <=? c) && (c <=? 8202))  (* U+2000 .. U+200A *)
   || (c =? 8232) || (c =? 8233)    (* U+2028 U+2029 *)
   || (c =? 8239)                   (* U+202F *)
   || (c =? 8287)                   (* U+205F *)
   || (c =? 12288)                  (* U+3000 *)
   || (c =? 65279))%N.              (* U+FEFF *)

Fixpoint trimStart (s : jsstring) : jsstring :=
  match s with
  | c :: s' => if is_space c then trimStart s' else s
  | [] => []
  end.

Definition trimEnd (s : jsstring) : jsstring := rev (trimStart (rev s)).

(** [s.trim()] *)
Definition trim (s : jsstring) : jsstring := trimEnd (trimStart s).

(** [s.startsWith(p)] *)
Fixpoint startsWith (s p : jsstring) : bool :=
  match p, s with
  | [], _ => true
  | a :: p', b :: s' => (a =? b)%N && startsWith s' p'
  | _ :: _, [] => false
  end.

(** [s.endsWith(p)] *)
Definition endsWith (s p : jsstring) : bool := startsWith (rev s) (rev p).

(** [s.substring(0, n)] for a natural [n]. *)
Definition substring0 (n : nat) (s : jsstring) : jsstring := firstn n s.

(** [s.split(/\s+/)]: the pieces between the maximal runs of white space.
    [in_sep] tells that the previous unit was white space, [cur] is the
    piece being read. *)
Fixpoint split_go (in_sep : bool) (cur s : jsstring) : list jsstring :=
  match s with
  | [] => [cur]
  | c :: s' =>
      if is_space c
      then (if in_sep then split_go true [] s'
            else cur :: split_go true [] s')
      else split_go false (cur ++ [c]) s'
  end.

Definition split_spaces (s : jsstring) : list jsstring := split_go false [] s.

(** [transcript.split(/\s+/).filter(w => w.length > 0).length] *)
Definition countWords (s : jsstring) : nat :=
  List.length (filter (fun w => 0 <? List.length w) (split_spaces s)).

(** The decimal text of a natural number, as a template literal prints an
    integral Number. *)
Definition decimal (n : N) : jsstring :=
  lit (NilZero.string_of_uint (N.to_uint n)).

End Str.

Export Str.

(** ** The data model: the interfaces of the two services *)

Inductive QuestionType := behavioral | technical | situational | case_study.
Inductive Difficulty := easy | medium | hard.
Inductive Efficiency := excellent | good | average | poor.

Module InterviewQuestion.
Record t := {
  id : jsstring;
  question : jsstring;
  type : QuestionType;
  difficulty : Difficulty;
  skills : list jsstring;
  expectedDuration : number;
  category : jsstring
}.
End InterviewQuestion.

(** What the services read of a [Blob]. *)
Module Blob.
Record t := { size : number }.
End Blob.

Module AudioLevelData.
Record t := { maxRms : number; sumRms : number; frames : number }.
End AudioLevelData.

Module AnalysisRequest.
Record t := {
  transcript : jsstring;
  question : InterviewQuestion.t;
  audioDuration : number;
  transcriptionConfidence : number;
  audioBlob : option Blob.t;
  audioLevelData : option AudioLevelData.t
}.
End AnalysisRequest.

Module AudioMetrics.
Record t := {
  duration : number;
  hasVoice : bool;
  transcript : jsstring;
  wordCount : number;
  avgRms : number;
  maxRms : number
}.
End AudioMetrics.

Module Feedback.
Record t := {
  strengths : list jsstring;
  weaknesses : list jsstring;
  suggestions : list jsstring;
  detailedFeedback : jsstring
}.
End Feedback.

Module Scores.
Record t := {
  clarity : number;
  relevance : number;
  structure : number;
  completeness : number;
  confidence : number
}.
End Scores.

Module KeyPoints.
Record t := { covered : list jsstring; missed : list jsstring }.
End KeyPoints.

Module TimeManagement.
Record t := { duration : number; efficiency : Efficiency; pacing : jsstring }.
End TimeManagement.

Module AnswerAnalysis.
Record t := {
  overallScore : number;
  transcript : jsstring;
  feedback : Feedback.t;
  scores : Scores.t;
  keyPoints : KeyPoints.t;
  timeManagement : TimeManagement.t;
  processingTime : number
}.
End AnswerAnalysis.

Module QuickFeedback.
Record t := {
  wordCount : number;
  duration : number;
  wordsPerMinute : number;
  estimatedScore : number;
  quickTips : list jsstring
}.
End QuickFeedback.

(** ** StaticAnalysisService *)

Module StaticAnalysisService.

Local Open Scope num_scope.

(** The two thresholds on the signal level, 0.015 and 0.008. *)
Definition peak_threshold : number := Fin (15 # 1000)%Q.
Definition mean_threshold : number := Fin (8 # 1000)%Q.

Definition analyzeAudioMetrics (audioBlob : Blob.t) (duration : number)
    (transcript : jsstring) (audioLevelData : AudioLevelData.t)
  : AudioMetrics.t :=
  let wordCount := Num.of_nat (countWords transcript) in
  let avgRms :=
    if Num.gt (AudioLevelData.frames audioLevelData) 0
    then Num.div (AudioLevelData.sumRms audioLevelData)
                 (AudioLevelData.frames audioLevelData)
    else 0 in
  let maxRms := AudioLevelData.maxRms audioLevelData in
  let bytesPerSecond :=
    if Num.gt duration 0 then Num.div (Blob.size audioBlob) duration
    else 0 in
  let hasAudioSignal :=
    Num.gt duration 0
    && Num.ge (Blob.size audioBlob) 2000
    && Num.ge bytesPerSecond 300
    && (Num.ge maxRms peak_threshold || Num.ge avgRms mean_threshold) in
  let hasVoice := hasAudioSignal || Num.gt wordCount 0 in
  {| AudioMetrics.duration := duration;
     AudioMetrics.hasVoice := hasVoice;
     AudioMetrics.transcript := transcript;
     AudioMetrics.wordCount := wordCount;
     AudioMetrics.avgRms := avgRms;
     AudioMetrics.maxRms := maxRms |}.

(** [a || b] on strings: the empty string is the only falsy one. *)
Definition or_else (a b : jsstring) : jsstring :=
  match a with [] => b | _ :: _ => a end.

Definition generateStaticAnalysis (metrics : AudioMetrics.t)
  : AnswerAnalysis.t :=
  let duration := AudioMetrics.duration metrics in
  let hasVoice := AudioMetrics.hasVoice metrics in
  let transcript := AudioMetrics.transcript metrics in
  let isShort := Num.lt duration 10 in
  let score := if negb hasVoice then 0 else (if isShort then 20 else 50) in
  {| AnswerAnalysis.overallScore := score;
     AnswerAnalysis.transcript :=
       or_else transcript
         (if hasVoice then lit "[Voice detected but transcript unavailable]"
          else lit "[No voice detected]");
     AnswerAnalysis.feedback :=
       {| Feedback.strengths :=
            if hasVoice then [lit "Audio captured successfully"] else [];
          Feedback.weaknesses :=
            if negb hasVoice then [lit "No voice detected"]
            else (if isShort then [lit "Response is very short"]
                  else [lit "AI analysis temporarily unavailable"]);
          Feedback.suggestions :=
            if negb hasVoice then [lit "Check microphone settings"]
            else [lit "Try recording a longer, more detailed response"];
          Feedback.detailedFeedback :=
            if negb hasVoice
            then lit "We could not detect any voice in your recording. Please ensure your microphone is working and speak clearly."
            else lit "Your response has been captured. For a full AI-powered analysis with strengths and weaknesses, please ensure you have a stable connection and provide a detailed answer." |};
     AnswerAnalysis.scores :=
       {| Scores.clarity := if hasVoice then 60 else 0;
          Scores.relevance := if hasVoice then 50 else 0;
          Scores.structure := if hasVoice then 40 else 0;
          Scores.completeness := if hasVoice then 30 else 0;
          Scores.confidence := if hasVoice then 50 else 0 |};
     AnswerAnalysis.keyPoints :=
       {| KeyPoints.covered := []; KeyPoints.missed := [] |};
     AnswerAnalysis.timeManagement :=
       {| TimeManagement.duration := duration;
          TimeManagement.efficiency :=
            if Num.gt duration 45 then good else average;
          TimeManagement.pacing :=
            if hasVoice then lit "Pacing detected" else lit "N/A" |};
     AnswerAnalysis.processingTime := 100 |}.

(** The metrics the legacy [analyzeAnswer] builds from the transcript
    alone. *)
Definition transcriptOnlyMetrics (request : AnalysisRequest.t)
  : AudioMetrics.t :=
  let wordCount := Num.of_nat (countWords (AnalysisRequest.transcript request)) in
  {| AudioMetrics.duration := AnalysisRequest.audioDuration request;
     AudioMetrics.hasVoice := Num.gt wordCount 0;
     AudioMetrics.transcript := AnalysisRequest.transcript request;
     AudioMetrics.wordCount := wordCount;
     AudioMetrics.avgRms := 0;
     AudioMetrics.maxRms := 0 |}.

(** The legacy method; its promise is always resolved. *)
Definition analyzeAnswer (request : AnalysisRequest.t) : AnswerAnalysis.t :=
  generateStaticAnalysis (transcriptOnlyMetrics request).

Definition getQuickTips (wordCount duration : number) : list jsstring :=
  let tips := [] in
  let tips :=
    if Num.gt duration 0 && Num.lt duration 30
    then tips ++ [lit "Aim for a longer response"] else tips in
  let tips :=
    if Num.gt wordCount 0 && Num.lt wordCount 50
    then tips ++ [lit "Add more specific examples"] else tips in
  tips.

Definition generateQuickFeedback (transcript : jsstring) (duration : number)
  : QuickFeedback.t :=
  let wordCount := Num.of_nat (countWords transcript) in
  let wordsPerMinute :=
    if Num.gt duration 0
    then Num.round (Num.mul (Num.div wordCount duration) 60)
    else 0 in
  {| QuickFeedback.wordCount := wordCount;
     QuickFeedback.duration := duration;
     QuickFeedback.wordsPerMinute := wordsPerMinute;
     QuickFeedback.estimatedScore :=
       Num.min
         (Num.max
            (Num.round (Num.add (Num.mul (Num.div wordCount 100) 80) 20))
            20)
         95;
     QuickFeedback.quickTips := getQuickTips wordCount duration |}.

End StaticAnalysisService.

(** ** JavaScript values at the JSON boundary *)

Module JS.

#[local] Set Warnings "-register-all".

Inductive jsvalue : Type :=
| JUndefined
| JNull
| JBool (b : bool)
| JNum (n : number)
| JStr (s : jsstring)
| JArr (items : list jsvalue)
| JObj (props : list (jsstring * jsvalue)).

(** The properties of an object, in insertion order; the first entry of a
    key is the property. *)
Definition props := list (jsstring * jsvalue).

Fixpoint lookup (k : jsstring) (ps : props) : option jsvalue :=
  match ps with
  | [] => None
  | (k', v) :: ps' => if Str.eqb k k' then Some v else lookup k ps'
  end.

(** [o[k] = v] on an object under construction: an existing property keeps
    its place, a new one goes last. *)
Fixpoint setProp (k : jsstring) (v : jsvalue) (ps : props) : props :=
  match ps with
  | [] => [(k, v)]
  | (k', v') :: ps' =>
      if Str.eqb k k' then (k, v) :: ps' else (k', v') :: setProp k v ps'
  end.

(** The key of the array index [i]. *)
Definition index_key (i : nat) : jsstring := decimal (N.of_nat i).

Definition indexed (vs : list jsvalue) : props :=
  combine (map index_key (seq 0 (List.length vs))) vs.

(** The own enumerable properties, which is what a spread [{...v}] copies:
    the entries of an object, the elements of an array, the code units of a
    string, and nothing for the other values. *)
Definition ownProps (v : jsvalue) : props :=
  match v with
  | JObj ps => ps
  | JArr vs => indexed vs
  | JStr s => indexed (map (fun c => JStr [c]) s)
  | _ => []
  end.

Definition nullish (v : jsvalue) : bool :=
  match v with
  | JUndefined | JNull => true
  | _ => false
  end.

(** Reading [v.k] on a value that is neither null nor undefined: an own
    property, else [length] on arrays and strings, else undefined. (None of
    the names the services read is defined on a built-in prototype.) *)
Definition getOwn (v : jsvalue) (k : jsstring) : jsvalue :=
  match lookup k (ownProps v) with
  | Some x => x
  | None =>
      match v with
      | JArr vs =>
          if Str.eqb k (lit "length") then JNum (Num.of_nat (List.length vs))
          else JUndefined
      | JStr s =>
          if Str.eqb k (lit "length") then JNum (Num.of_nat (List.length s))
          else JUndefined
      | _ => JUndefined
      end
  end.

(** [v.k]; [None] is the TypeError of reading a property of null or
    undefined. *)
Definition getProp (v : jsvalue) (k : jsstring) : option jsvalue :=
  if nullish v then None else Some (getOwn v k).

(** [v?.k] *)
Definition optProp (v : jsvalue) (k : jsstring) : jsvalue :=
  if nullish v then JUndefined else getOwn v k.

(** ToBoolean *)
Definition truthy (v : jsvalue) : bool :=
  match v with
  | JUndefined | JNull => false
  | JBool b => b
  | JNum n => Num.truthy n
  | JStr s => match s with [] => false | _ :: _ => true end
  | JArr _ | JObj _ => true
  end.

Definition isNumber (v : jsvalue) : bool :=
  match v with JNum _ => true | _ => false end.

Definition isString (v : jsvalue) : bool :=
  match v with JStr _ => true | _ => false end.

Definition isStringArray (v : jsvalue) : bool :=
  match v with JArr vs => forallb isString vs | _ => false end.

Definition isObject (v : jsvalue) : bool :=
  match v with JObj _ => true | _ => false end.

End JS.

Export JS.

(** ** The report as a JavaScript object *)

Module Report.

Definition efficiency_text (e : Efficiency) : jsstring :=
  match e with
  | excellent => lit "excellent"
  | good => lit "good"
  | average => lit "average"
  | poor => lit "poor"
  end.

Definition strings (l : list jsstring) : jsvalue := JArr (map JStr l).

(** The object literal an [AnswerAnalysis] stands for. *)
Definition to_js (r : AnswerAnalysis.t) : jsvalue :=
  let f := AnswerAnalysis.feedback r in
  let s := AnswerAnalysis.scores r in
  let k := AnswerAnalysis.keyPoints r in
  let t := AnswerAnalysis.timeManagement r in
  JObj
    [ (lit "overallScore", JNum (AnswerAnalysis.overallScore r));
      (lit "transcript", JStr (AnswerAnalysis.transcript r));
      (lit "feedback",
        JObj [ (lit "strengths", strings (Feedback.strengths f));
               (lit "weaknesses", strings (Feedback.weaknesses f));
               (lit "suggestions", strings (Feedback.suggestions f));
               (lit "detailedFeedback", JStr (Feedback.detailedFeedback f)) ]);
      (lit "scores",
        JObj [ (lit "clarity", JNum (Scores.clarity s));
               (lit "relevance", JNum (Scores.relevance s));
               (lit "structure", JNum (Scores.structure s));
               (lit "completeness", JNum (Scores.completeness s));
               (lit "confidence", JNum (Scores.confidence s)) ]);
      (lit "keyPoints",
        JObj [ (lit "covered", strings (KeyPoints.covered k));
               (lit "missed", strings (KeyPoints.missed k)) ]);
      (lit "timeManagement",
        JObj [ (lit "duration", JNum (TimeManagement.duration t));
               (lit "efficiency", JStr (efficiency_text (TimeManagement.efficiency t)));
               (lit "pacing", JStr (TimeManagement.pacing t)) ]);
      (lit "processingTime", JNum (AnswerAnalysis.processingTime r)) ].

Definition isEfficiency (v : jsvalue) : bool :=
  match v with
  | JStr s =>
      existsb (fun e => Str.eqb s (efficiency_text e))
              [excellent; good; average; poor]
  | _ => false
  end.

(** Every field of the [AnswerAnalysis] interface is there, with the type
    the interface gives it. *)
Definition populated (v : jsvalue) : bool :=
  let f := getOwn v (lit "feedback") in
  let s := getOwn v (lit "scores") in
  let k := getOwn v (lit "keyPoints") in
  let t := getOwn v (lit "timeManagement") in
  isObject v
  && isNumber (getOwn v (lit "overallScore"))
  && isString (getOwn v (lit "transcript"))
  && isObject f
  && isStringArray (getOwn f (lit "strengths"))
  && isStringArray (getOwn f (lit "weaknesses"))
  && isStringArray (getOwn f (lit "suggestions"))
  && isString (getOwn f (lit "detailedFeedback"))
  && isObject s
  && isNumber (getOwn s (lit "clarity"))
  && isNumber (getOwn s (lit "relevance"))
  && isNumber (getOwn s (lit "structure"))
  && isNumber (getOwn s (lit "completeness"))
  && isNumber (getOwn s (lit "confidence"))
  && isObject k
  && isStringArray (getOwn k (lit "covered"))
  && isStringArray (getOwn k (lit "missed"))
  && isObject t
  && isNumber (getOwn t (lit "duration"))
  && isEfficiency (getOwn t (lit "efficiency"))
  && isString (getOwn t (lit "pacing"))
  && isNumber (getOwn v (lit "processingTime")).

End Report.

(** ** Thrown errors and the trace of calls *)

Module Eff.

Inductive error : Type :=
| Error_ (message : jsstring)   (* [new Error(message)] *)
| TypeError                     (* raised by the runtime *)
| SyntaxError                   (* raised by a JSON parse *)
| Rejected.                     (* a promise of the transport rejected *)

(** The calls the orchestrator and the remote client make. *)
Inductive event : Type :=
| Call_analyzeAudioMetrics
| Call_gemini_analyzeAnswer
| Call_fetch (url : jsstring)
| Call_generateStaticAnalysis
| Call_static_analyzeAnswer.

Inductive outcome (A : Type) : Type :=
| Returned (a : A)
| Thrown (e : error).

Arguments Returned {A} a.
Arguments Thrown {A} e.

(** A computation reads the calls made so far and answers with an outcome
    and the calls made up to its end. *)
Definition M (A : Type) : Type := list event -> outcome A * list event.

Definition ret {A} (a : A) : M A := fun tr => (Returned a, tr).

Definition bind {A B} (c : M A) (k : A -> M B) : M B :=
  fun tr =>
    match c tr with
    | (Returned a, tr') => k a tr'
    | (Thrown e, tr') => (Thrown e, tr')
    end.

Definition throw {A} (e : error) : M A := fun tr => (Thrown e, tr).

(** [try { c } catch (e) { h e }] *)
Definition tryCatch {A} (c : M A) (h : error -> M A) : M A :=
  fun tr =>
    match c tr with
    | (Returned a, tr') => (Returned a, tr')
    | (Thrown e, tr') => h e tr'
    end.

Definition emit (e : event) : M unit := fun tr => (Returned tt, tr ++ [e]).

(** A runtime operation that either yields a value or throws [e]. *)
Definition orThrow {A} (e : error) (o : option A) : M A :=
  match o with
  | Some a => ret a
  | None => throw e
  end.

(** Running a computation from the empty trace. *)
Definition result {A} (c : M A) : outcome A := fst (c []).
Definition calls {A} (c : M A) : list event := snd (c []).

End Eff.

Export Eff.

Declare Scope eff_scope.
Delimit Scope eff_scope with eff.
Notation "x <- c ;; k" := (Eff.bind c (fun x => k))
  (at level 61, c at next level, right associativity) : eff_scope.
Notation "c ;; k" := (Eff.bind c (fun _ => k))
  (at level 61, right associativity) : eff_scope.

(** ** GeminiAnalysisService *)

Module Response.
(** [text] is what reading the body resolves to, [None] when the read is
    rejected. *)
Record t := { ok : bool; status : N; text : option jsstring }.
End Response.

(** What a call depends on outside the request: the build-time environment,
    the transport and the clock. *)
Module World.
Record t := {
  VITE_GEMINI_API_KEY : option jsstring;
  VITE_GOOGLE_SPEECH_API_KEY : option jsstring;
  GEMINI_PROXY_URL : jsstring;
  GEMINI_MODEL : jsstring;
  (** [fetch(url, { method: 'POST', ..., body: JSON.stringify(body) })],
      [None] when the promise is rejected. *)
  fetch : jsstring -> jsvalue -> option Response.t;
  (** The two readings of [Date.now()]. *)
  now_on_entry : number;
  now_after_body : number
}.
End World.

Module GeminiAnalysisService.

Local Open Scope eff_scope.

(** [a || b] on two environment variables. *)
Definition env_or (a b : option jsstring) : option jsstring :=
  match a with
  | Some (_ :: _) => a
  | _ => b
  end.

(** [s.replace(/^MARKER\n?/, '')] for a literal [marker]. *)
Definition dropOpeningFence (marker s : jsstring) : jsstring :=
  if startsWith s marker
  then match skipn (List.length marker) s with
       | 10%N :: rest => rest
       | rest => rest
       end
  else s.

(** [s.replace(/\n?```$/, '')]: the leftmost match takes the line feed
    before the closing fence when there is one. *)
Definition dropClosingFence (s : jsstring) : jsstring :=
  match rev s with
  | 96%N :: 96%N :: 96%N :: 10%N :: r => rev r
  | 96%N :: 96%N :: 96%N :: r => rev r
  | _ => s
  end.

(** "Remove markdown code blocks if present", on the trimmed text. *)
Definition removeCodeFence (cleanedText : jsstring) : jsstring :=
  if startsWith cleanedText (lit "```json")
  then dropClosingFence (dropOpeningFence (lit "```json") cleanedText)
  else if startsWith cleanedText (lit "```")
  then dropClosingFence (dropOpeningFence (lit "```") cleanedText)
  else cleanedText.

(** The whole step on a text: [trim], then the fences. *)
Definition stripCodeFence (analysisText : jsstring) : jsstring :=
  removeCodeFence (trim analysisText).

(** [data.candidates[0]?.content?.parts?.[0]?.text] *)
Definition candidateText (candidates : jsvalue) : jsvalue :=
  optProp (optProp (optProp (optProp (getOwn candidates (index_key 0))
                                     (lit "content"))
                            (lit "parts"))
                   (index_key 0))
          (lit "text").

(** [v.trim()]: only a string has the method. *)
Definition callTrim (v : jsvalue) : M jsstring :=
  match v with
  | JStr s => ret (trim s)
  | _ => throw TypeError
  end.

Section Service.

(** [JSON.parse]; [None] is its SyntaxError. *)
Variable JSON_parse : jsstring -> option jsvalue.

(** [generateAnalysisPrompt], a text that depends on how the runtime
    prints Numbers. *)
Variable generateAnalysisPrompt :
  InterviewQuestion.t -> jsstring -> number -> number -> jsstring.

Variable w : World.t.

Definition GEMINI_KEY : option jsstring :=
  env_or (World.VITE_GEMINI_API_KEY w) (World.VITE_GOOGLE_SPEECH_API_KEY w).

Definition useDirectApi : bool :=
  match GEMINI_KEY with
  | Some ((_ :: _) as k) => startsWith k (lit "AIza")
  | _ => false
  end.

Definition directUrl : jsstring :=
  lit "https://generativelanguage.googleapis.com/v1beta/models/"
  ++ lit "gemini-2.5-flash" ++ lit ":generateContent?key="
  ++ match GEMINI_KEY with Some k => k | None => [] end.

Definition doFetch (url : jsstring) (body : jsvalue) : M Response.t :=
  emit (Call_fetch url) ;;
  orThrow Rejected (World.fetch w url body).

(** [response.json()] *)
Definition responseJson (response : Response.t) : M jsvalue :=
  t <- orThrow Rejected (Response.text response) ;;
  orThrow SyntaxError (JSON_parse t).

(** The chain of tests on the three shapes of an answer. Once
    [data.candidates] has been read, [data] is known not to be null. *)
Definition extractText (data : jsvalue) : M jsvalue :=
  candidates <- orThrow TypeError (getProp data (lit "candidates")) ;;
  if truthy candidates && truthy (candidateText candidates)
  then
    c <- orThrow TypeError (getProp data (lit "candidates")) ;;
    c0 <- orThrow TypeError (getProp c (index_key 0)) ;;
    content <- orThrow TypeError (getProp c0 (lit "content")) ;;
    parts <- orThrow TypeError (getProp content (lit "parts")) ;;
    p0 <- orThrow TypeError (getProp parts (index_key 0)) ;;
    orThrow TypeError (getProp p0 (lit "text"))
  else if truthy (getOwn data (lit "text"))
  then ret (getOwn data (lit "text"))
  else if truthy (getOwn data (lit "response"))
  then ret (getOwn data (lit "response"))
  else throw (Error_ (lit "No analysis results received from Gemini")).

(** The object literal that [analyzeAnswer] returns. *)
Definition overlay (analysisResult : jsvalue) (request : AnalysisRequest.t)
    (processingTime : number) : M jsvalue :=
  let o := ownProps analysisResult in
  let o := setProp (lit "transcript")
                   (JStr (AnalysisRequest.transcript request)) o in
  tm <- orThrow TypeError (getProp analysisResult (lit "timeManagement")) ;;
  let t := ownProps tm in
  let t := setProp (lit "duration")
                   (JNum (AnalysisRequest.audioDuration request)) t in
  let o := setProp (lit "timeManagement") (JObj t) o in
  let o := setProp (lit "processingTime") (JNum processingTime) o in
  ret (JObj o).

Definition analyzeAnswer (request : AnalysisRequest.t) : M jsvalue :=
  let startTime := World.now_on_entry w in
  tryCatch
    (let prompt :=
       generateAnalysisPrompt
         (AnalysisRequest.question request)
         (AnalysisRequest.transcript request)
         (AnalysisRequest.audioDuration request)
         (AnalysisRequest.transcriptionConfidence request) in
     response <-
       (if useDirectApi
        then doFetch directUrl
               (JObj [(lit "contents",
                       JArr [JObj [(lit "parts",
                                    JArr [JObj [(lit "text", JStr prompt)]])]])])
        else doFetch (World.GEMINI_PROXY_URL w)
               (JObj [(lit "model", JStr (World.GEMINI_MODEL w));
                      (lit "input", JStr prompt)])) ;;
     (if negb (Response.ok response)
      then
        errorText <- orThrow Rejected (Response.text response) ;;
        throw (Error_ (lit "Gemini API error ("
                       ++ decimal (Response.status response)
                       ++ lit "): " ++ substring0 100 errorText))
      else ret tt) ;;
     data <- responseJson response ;;
     let processingTime := Num.sub (World.now_after_body w) startTime in
     analysisText <- extractText data ;;
     cleanedText <- callTrim analysisText ;;
     let cleanedText := removeCodeFence cleanedText in
     analysisResult <- orThrow SyntaxError (JSON_parse cleanedText) ;;
     overlay analysisResult request processingTime)
    (fun error => throw error).

(** The three calls of [processAudioResponse], each leaving its mark in
    the trace. *)
Definition call_analyzeAudioMetrics (b : Blob.t) (d : number)
    (t : jsstring) (l : AudioLevelData.t) : M AudioMetrics.t :=
  emit Call_analyzeAudioMetrics ;;
  ret (StaticAnalysisService.analyzeAudioMetrics b d t l).

Definition call_generateStaticAnalysis (m : AudioMetrics.t) : M jsvalue :=
  emit Call_generateStaticAnalysis ;;
  ret (Report.to_js (StaticAnalysisService.generateStaticAnalysis m)).

Definition call_static_analyzeAnswer (request : AnalysisRequest.t)
  : M jsvalue :=
  emit Call_static_analyzeAnswer ;;
  call_generateStaticAnalysis
    (StaticAnalysisService.transcriptOnlyMetrics request).

Definition call_analyzeAnswer (request : AnalysisRequest.t) : M jsvalue :=
  emit Call_gemini_analyzeAnswer ;;
  analyzeAnswer request.

Definition processAudioResponse (request : AnalysisRequest.t) : M jsvalue :=
  audioMetrics <-
    match AnalysisRequest.audioBlob request,
          AnalysisRequest.audioLevelData request with
    | Some audioBlob, Some audioLevelData =>
        m <- call_analyzeAudioMetrics audioBlob
               (AnalysisRequest.audioDuration request)
               (AnalysisRequest.transcript request)
               audioLevelData ;;
        ret (Some m)
    | _, _ => ret None
    end ;;
  fromAI <-
    (if 0 <? List.length (trim (AnalysisRequest.transcript request))
     then tryCatch (v <- call_analyzeAnswer request ;; ret (Some v))
                   (fun error => ret None)
     else ret None) ;;
  match fromAI with
  | Some v => ret v
  | None =>
      match audioMetrics with
      | Some m => call_generateStaticAnalysis m
      | None => call_static_analyzeAnswer request
      end
  end.

End Service.

End GeminiAnalysisService.

(** ** Vocabulary of the statements *)

(** A string with a unit that is not white space. *)
Definition hasNonSpace (s : jsstring) : bool :=
  existsb (fun c => negb (is_space c)) s.

(** The number of non-empty strings of a list. *)
Definition nonEmptyCount (l : list jsstring) : nat :=
  List.length (filter (fun w => 0 <? List.length w) l).

(** A score between 0 and 100. *)
Definition inRange0_100 (x : number) : bool :=
  Num.le 0%num x && Num.le x 100%num.

(** A computation is uniform when it only ever appends to the trace and its
    outcome is the same from every trace. *)
Definition uniform {A} (c : M A) : Prop :=
  forall tr, c tr = (result c, tr ++ calls c).

(** Where the request is sent, and with which body. *)
Definition endpoint (w : World.t) : jsstring :=
  if GeminiAnalysisService.useDirectApi w
  then GeminiAnalysisService.directUrl w
  else World.GEMINI_PROXY_URL w.

Definition requestBody
    (generateAnalysisPrompt :
       InterviewQuestion.t -> jsstring -> number -> number -> jsstring)
    (w : World.t) (request : AnalysisRequest.t) : jsvalue :=
  let prompt :=
    generateAnalysisPrompt
      (AnalysisRequest.question request)
      (AnalysisRequest.transcript request)
      (AnalysisRequest.audioDuration request)
      (AnalysisRequest.transcriptionConfidence request) in
  if GeminiAnalysisService.useDirectApi w
  then JObj [(lit "contents",
              JArr [JObj [(lit "parts",
                           JArr [JObj [(lit "text", JStr prompt)]])]])]
  else JObj [(lit "model", JStr (World.GEMINI_MODEL w));
             (lit "input", JStr prompt)].

Definition elapsed (w : World.t) : number :=
  Num.sub (World.now_after_body w) (World.now_on_entry w).

(** The line feed, and the text [```json\n] ++ s ++ [\n```]. *)
Definition LF : unit16 := 10%N.

Definition fenced (s : jsstring) : jsstring :=
  lit "```json" ++ [LF] ++ s ++ [LF] ++ lit "```".

(** The same with the bare marker: [```\n] ++ s ++ [\n```]. *)
Definition plainFenced (s : jsstring) : jsstring :=
  lit "```" ++ [LF] ++ s ++ [LF] ++ lit "```".

(** The three tests of [extractText]. *)
Definition directApiShape (data : jsvalue) : bool :=
  truthy (optProp data (lit "candidates"))
  && truthy (GeminiAnalysisService.candidateText
               (optProp data (lit "candidates"))).

Definition relayTextShape (data : jsvalue) : bool :=
  truthy (optProp data (lit "text")).

Definition relayResponseShape (data : jsvalue) : bool :=
  truthy (optProp data (lit "response")).

(** The metrics computed up front, when the request carries both the blob
    and the level statistics. *)
Definition eagerMetrics (request : AnalysisRequest.t) : option AudioMetrics.t :=
  match AnalysisRequest.audioBlob request,
        AnalysisRequest.audioLevelData request with
  | Some audioBlob, Some audioLevelData =>
      Some (StaticAnalysisService.analyzeAudioMetrics audioBlob
              (AnalysisRequest.audioDuration request)
              (AnalysisRequest.transcript request) audioLevelData)
  | _, _ => None
  end.

(** The report and the calls of the static fallback. *)
Definition fallbackReport (request : AnalysisRequest.t) : jsvalue :=
  Report.to_js
    (StaticAnalysisService.generateStaticAnalysis
       (match eagerMetrics request with
        | Some m => m
        | None => StaticAnalysisService.transcriptOnlyMetrics request
        end)).

Definition fallbackCalls (request : AnalysisRequest.t) : list event :=
  match eagerMetrics request with
  | Some _ => [Call_generateStaticAnalysis]
  | None => [Call_static_analyzeAnswer; Call_generateStaticAnalysis]
  end.

Definition eagerCalls (request : AnalysisRequest.t) : list event :=
  match eagerMetrics request with
  | Some _ => [Call_analyzeAudioMetrics]
  | None => []
  end.

(** Kinds of calls, and how many calls of a kind a trace holds. *)
Definition isFetch (e : event) : bool :=
  match e with Call_fetch _ => true | _ => false end.

Definition isRemoteCall (e : event) : bool :=
  match e with Call_gemini_analyzeAnswer => true | _ => false end.

Definition isScorerCall (e : event) : bool :=
  match e with Call_generateStaticAnalysis => true | _ => false end.

Definition isExtractorCall (e : event) : bool :=
  match e with Call_analyzeAudioMetrics => true | _ => false end.

Definition countCalls (kind : event -> bool) (tr : list event) : nat :=
  List.length (filter kind tr).

(** The address of the direct API, up to the key. *)
Definition directApiBase : jsstring :=
  lit "https://generativelanguage.googleapis.com/v1beta/models/"
  ++ lit "gemini-2.5-flash" ++ lit ":generateContent?key=".

(** ** VoiceLibrary *)

Module VoiceLibrary.

Inductive VoiceDifficulty := Easy | Medium | Hard.

Definition difficulty_text (d : VoiceDifficulty) : jsstring :=
  match d with
  | Easy => lit "Easy"
  | Medium => lit "Medium"
  | Hard => lit "Hard"
  end.

Module VoiceFile.
Record t := {
  id : jsstring;
  name : jsstring;
  displayName : jsstring;
  duration : option number;
  category : jsstring;
  difficulty : VoiceDifficulty;
  description : jsstring
}.
End VoiceFile.

(** The state [audioDurations]: an object from file ids to durations, in
    insertion order. (No id of the library is a name of [Object.prototype].) *)
Definition durations := list (jsstring * number).

(** [audioDurations[id]] *)
Fixpoint getDuration (id : jsstring) (d : durations) : option number :=
  match d with
  | [] => None
  | (k, v) :: d' => if Str.eqb id k then Some v else getDuration id d'
  end.

(** [durations[id] = v] *)
Fixpoint setDuration (id : jsstring) (v : number) (d : durations) : durations :=
  match d with
  | [] => [(id, v)]
  | (k, v') :: d' =>
      if Str.eqb id k then (id, v) :: d' else (k, v') :: setDuration id v d'
  end.

(** One entry of the table; its duration is read from the state. *)
Definition voiceFile (audioDurations : durations)
    (id name displayName category : string) (difficulty : VoiceDifficulty)
    (description : string) : VoiceFile.t :=
  {| VoiceFile.id := lit id;
     VoiceFile.name := lit name;
     VoiceFile.displayName := lit displayName;
     VoiceFile.duration := getDuration (lit id) audioDurations;
     VoiceFile.category := lit category;
     VoiceFile.difficulty := difficulty;
     VoiceFile.description := lit description |}.

Definition voiceFiles (audioDurations : durations) : list VoiceFile.t :=
  [ voiceFile audioDurations "the-borrowed-grade" "The Borrowed Grade (1).mp3"
      "The Borrowed Grade" "Academic Ethics" Medium
      "A scenario about academic integrity and difficult choices";
    voiceFile audioDurations "the-borrowed-research" "The Borrowed Research (1).mp3"
      "The Borrowed Research" "Research Ethics" Hard
      "Professional ethics in research and publication";
    voiceFile audioDurations "the-bug-in-the-bank" "The Bug in the Bank (1).mp3"
      "The Bug in the Bank" "Technical Dilemma" Medium
      "Technical problem-solving in critical systems";
    voiceFile audioDurations "the-clients-false-hope" "The Client's False Hope (1).mp3"
      "The Client's False Hope" "Client Management" Medium
      "Managing client expectations and difficult conversations";
    voiceFile audioDurations "the-club-funds" "The Club Funds (1).mp3"
      "The Club Funds" "Financial Ethics" Easy
      "Handling organizational finances and transparency";
    voiceFile audioDurations "the-compromised-proctor" "The Compromised Proctor (1).mp3"
      "The Compromised Proctor" "Academic Integrity" Hard
      "Ethical dilemmas in examination supervision";
    voiceFile audioDurations "the-cost-cutting-danger" "The Cost-Cutting Danger (1).mp3"
      "The Cost-Cutting Danger" "Business Ethics" Medium
      "Balancing cost reduction with quality and safety";
    voiceFile audioDurations "the-credit-stealer" "The Credit Stealer (1).mp3"
      "The Credit Stealer" "Workplace Ethics" Medium
      "Dealing with plagiarism and credit attribution";
    voiceFile audioDurations "the-diversity-hire" "The Diversity Hire (1).mp3"
      "The Diversity Hire" "Workplace Diversity" Hard
      "Navigating diversity, equity, and inclusion challenges";
    voiceFile audioDurations "the-diversity-vs-merit" "The Diversity vs. Merit (1).mp3"
      "The Diversity vs. Merit" "Hiring Practices" Hard
      "Complex discussions about hiring criteria and fairness";
    voiceFile audioDurations "the-fake-internship" "The Fake Internship (1).mp3"
      "The Fake Internship" "Career Ethics" Easy
      "Honesty in professional development opportunities";
    voiceFile audioDurations "the-ghosted-client" "The Ghosted Client (1).mp3"
      "The Ghosted Client" "Client Relations" Medium
      "Professional communication and client management";
    voiceFile audioDurations "the-legacy-code-trap" "The Legacy Code Trap (1).mp3"
      "The Legacy Code Trap" "Technical Debt" Hard
      "Managing legacy systems and technical decisions";
    voiceFile audioDurations "the-managers-shadow" "The Manager's Shadow (1).mp3"
      "The Manager's Shadow" "Leadership" Medium
      "Leadership challenges and team dynamics";
    voiceFile audioDurations "the-over-allocated-lead" "The Over-Allocated Lead (1).mp3"
      "The Over-Allocated Lead" "Project Management" Medium
      "Resource management and setting realistic expectations";
    voiceFile audioDurations "the-placement-betrayal" "The Placement Betrayal.mp3"
      "The Placement Betrayal" "Career Development" Hard
      "Professional relationships and career opportunities";
    voiceFile audioDurations "the-placement-dilemma" "The Placement Dilemma.mp3"
      "The Placement Dilemma" "Career Choices" Medium
      "Making difficult career decisions and trade-offs";
    voiceFile audioDurations "the-social-media-firestorm" "The Social Media Firestorm.mp3"
      "The Social Media Firestorm" "Digital Ethics" Hard
      "Managing social media crises and online reputation";
    voiceFile audioDurations "the-stolen-project" "The Stolen Project.mp3"
      "The Stolen Project" "Intellectual Property" Medium
      "Protecting intellectual property and creative work";
    voiceFile audioDurations "the-toxic-client" "The Toxic Client.mp3"
      "The Toxic Client" "Client Management" Hard
      "Handling difficult professional relationships";
    voiceFile audioDurations "the-whistleblowers-price" "The Whistleblower's Price.mp3"
      "The Whistleblower's Price" "Ethical Courage" Hard
      "The personal and professional costs of speaking up";
    voiceFile audioDurations "the-work-life-ultimatum" "The Work-Life Ultimatum.mp3"
      "The Work-Life Ultimatum" "Work-Life Balance" Medium
      "Balancing professional demands with personal life" ].

(** [s.padStart(n, c)] for a filler of one unit. *)
Definition padStart (n : nat) (c : unit16) (s : jsstring) : jsstring :=
  List.repeat c (n - List.length s) ++ s.

Definition getDifficultyColor (difficulty : jsstring) : jsstring :=
  if Str.eqb difficulty (lit "Easy")
  then lit "bg-green-100 text-green-700 border-green-200"
  else if Str.eqb difficulty (lit "Medium")
  then lit "bg-yellow-100 text-yellow-700 border-yellow-200"
  else if Str.eqb difficulty (lit "Hard")
  then lit "bg-red-100 text-red-700 border-red-200"
  else lit "bg-gray-100 text-gray-700 border-gray-200".

(** [selectedFile?.id === file.id] *)
Definition isSelected (selectedFile : option VoiceFile.t) (file : VoiceFile.t)
  : bool :=
  match selectedFile with
  | Some s => Str.eqb (VoiceFile.id s) (VoiceFile.id file)
  | None => false
  end.

(** The text of the select button of a row. *)
Definition selectLabel (selectedFile : option VoiceFile.t) (file : VoiceFile.t)
  : jsstring :=
  if isSelected selectedFile file then lit "Selected" else lit "Select".

(** What waiting for the metadata of an [Audio] element ends in: the
    [loadedmetadata] event with the duration then known, the [error] event,
    or neither of them, ever. *)
Inductive metadata : Type :=
| Loaded (duration : number)
| Failed
| Stalled.

Section Component.

(** [String(n)] of the runtime. *)
Variable Number_toString : number -> jsstring.

(** The fate of [new Audio(url)]. *)
Variable loadMetadata : jsstring -> metadata.

Definition formatDuration (seconds : number) : jsstring :=
  if negb (Num.truthy seconds) || Num.isNaN seconds then lit "--:--"
  else
    let mins := Num.floor (Num.div seconds 60%num) in
    let secs := Num.floor (Num.rem seconds 60%num) in
    Number_toString mins ++ lit ":" ++ padStart 2 48%N (Number_toString secs).

(** [formatDuration(audioDurations[file.id] || 0)] *)
Definition displayedDuration (audioDurations : durations) (file : VoiceFile.t)
  : jsstring :=
  formatDuration
    (match getDuration (VoiceFile.id file) audioDurations with
     | Some d => if Num.truthy d then d else 0%num
     | None => 0%num
     end).

(** The loop of [loadDurations] over the files still to load; [None] when an
    awaited promise never settles, so that the loop never ends. *)
Fixpoint loadLoop (files : list VoiceFile.t) (acc : durations)
  : option durations :=
  match files with
  | [] => Some acc
  | file :: rest =>
      match loadMetadata (lit "/voice/" ++ VoiceFile.name file) with
      | Loaded d => loadLoop rest (setDuration (VoiceFile.id file) d acc)
      | Failed => loadLoop rest acc
      | Stalled => None
      end
  end.

(** [loadDurations], run on mount: the state it sets, if it gets there. *)
Definition loadDurations : option durations := loadLoop (voiceFiles []) [].

End Component.

End VoiceLibrary.

(** ** Sample inputs *)

Module Sample.

(** JSON texts are written with the quotation mark as a code unit. *)
Definition dq : jsstring := [34%N].
Definition quoted (s : jsstring) : jsstring := dq ++ s ++ dq.

(** A text inside a JSON string: quotation marks, backslashes and line
    feeds are escaped. *)
Fixpoint escape (s : jsstring) : jsstring :=
  match s with
  | [] => []
  | c :: s' =>
      (if (c =? 34)%N then [92%N; 34%N]
       else if (c =? 92)%N then [92%N; 92%N]
       else if (c =? 10)%N then [92%N; 110%N]
       else [c]) ++ escape s'
  end.

(** The text of [{ KEY: TEXT }]. *)
Definition envelope (key text : jsstring) : jsstring :=
  lit "{" ++ quoted key ++ lit ":" ++ quoted (escape text) ++ lit "}".

(** A remote answer that restates transcript and duration on its own. *)
Definition answerText : jsstring :=
  lit "{" ++ quoted (lit "overallScore") ++ lit ":80,"
  ++ quoted (lit "transcript") ++ lit ":" ++ quoted (lit "made up") ++ lit ","
  ++ quoted (lit "timeManagement") ++ lit ":{"
  ++ quoted (lit "duration") ++ lit ":1,"
  ++ quoted (lit "efficiency") ++ lit ":" ++ quoted (lit "good") ++ lit "}}".

Definition answerValue : jsvalue :=
  JObj [ (lit "overallScore", JNum 80%num);
         (lit "transcript", JStr (lit "made up"));
         (lit "timeManagement",
           JObj [ (lit "duration", JNum 1%num);
                  (lit "efficiency", JStr (lit "good")) ]) ].

(** [JSON.parse] on the texts of the examples; every other text is taken
    as malformed, as [oops] is. *)
Definition parseTable : list (jsstring * jsvalue) :=
  [ (lit "{}", JObj []);
    (answerText, answerValue);
    (envelope (lit "text") (lit "{}"),
      JObj [(lit "text", JStr (lit "{}"))]);
    (envelope (lit "text") (lit "oops"),
      JObj [(lit "text", JStr (lit "oops"))]);
    (envelope (lit "response") (fenced answerText),
      JObj [(lit "response", JStr (fenced answerText))]) ].

Definition parse (s : jsstring) : option jsvalue := lookup s parseTable.

Definition prompt (q : InterviewQuestion.t) (transcript : jsstring)
    (duration confidence : number) : jsstring :=
  lit "QUESTION: " ++ InterviewQuestion.question q
  ++ lit " TRANSCRIPT: " ++ transcript.

(** A world without a client-side key, whose relay always answers [r]. *)
Definition world (r : option Response.t) : World.t :=
  {| World.VITE_GEMINI_API_KEY := None;
     World.VITE_GOOGLE_SPEECH_API_KEY := None;
     World.GEMINI_PROXY_URL := lit "/api/gemini-proxy";
     World.GEMINI_MODEL := lit "gemini-2.5-flash";
     World.fetch := fun _ _ => r;
     World.now_on_entry := 1000%num;
     World.now_after_body := 1250%num |}.

Definition answers (status : N) (body : jsstring) : option Response.t :=
  Some {| Response.ok := (200 <=? status)%N && (status <=? 299)%N;
          Response.status := status;
          Response.text := Some body |}.

Definition question : InterviewQuestion.t :=
  {| InterviewQuestion.id := lit "q1";
     InterviewQuestion.question := lit "Tell me about yourself";
     InterviewQuestion.type := behavioral;
     InterviewQuestion.difficulty := easy;
     InterviewQuestion.skills := [lit "communication"];
     InterviewQuestion.expectedDuration := 60%num;
     InterviewQuestion.category := lit "general" |}.

(** A request without raw audio. *)
Definition request (transcript : jsstring) (duration : number)
  : AnalysisRequest.t :=
  {| AnalysisRequest.transcript := transcript;
     AnalysisRequest.question := question;
     AnalysisRequest.audioDuration := duration;
     AnalysisRequest.transcriptionConfidence := Fin (9 # 10)%Q;
     AnalysisRequest.audioBlob := None;
     AnalysisRequest.audioLevelData := None |}.

(** Two requests, five relays, and the two services run on them. *)
Definition hello : AnalysisRequest.t := request (lit "hello") 12%num.
Definition blank : AnalysisRequest.t := request (lit " ") 12%num.

Definition serverError : World.t :=
  world (answers 500 (lit "Internal Server Error")).
Definition emptyObject : World.t := world (answers 200 (lit "{}")).
Definition notJson : World.t :=
  world (answers 200 (envelope (lit "text") (lit "oops"))).
Definition bareAnswer : World.t :=
  world (answers 200 (envelope (lit "text") (lit "{}"))).
Definition fullAnswer : World.t :=
  world (answers 200 (envelope (lit "response") (fenced answerText))).

Definition analyze (w : World.t) (r : AnalysisRequest.t) : outcome jsvalue :=
  result (GeminiAnalysisService.analyzeAnswer parse prompt w r).

Definition orchestrate (w : World.t) (r : AnalysisRequest.t) : M jsvalue :=
  GeminiAnalysisService.processAudioResponse parse prompt w r.

(** What is left of a report when the remote answer is [{}]. *)
Definition bareReport : jsvalue :=
  JObj [ (lit "transcript", JStr (lit "hello"));
         (lit "timeManagement", JObj [(lit "duration", JNum 12%num)]);
         (lit "processingTime", JNum 250%num) ].

(** Metrics with a given duration and voice flag, and silent levels. *)
Definition metrics_of (d : number) (v : bool) : AudioMetrics.t :=
  {| AudioMetrics.duration := d; AudioMetrics.hasVoice := v;
     AudioMetrics.transcript := []; AudioMetrics.wordCount := 0%num;
     AudioMetrics.avgRms := 0%num; AudioMetrics.maxRms := 0%num |}.

Definition silence : AudioLevelData.t :=
  {| AudioLevelData.maxRms := 0%num; AudioLevelData.sumRms := 0%num;
     AudioLevelData.frames := 0%num |}.

End Sample.

(** ** Vocabulary of the statements on the voice library *)

(** A file of the table with its duration read from another state. *)
Definition withDuration (audioDurations : VoiceLibrary.durations)
    (file : VoiceLibrary.VoiceFile.t) : VoiceLibrary.VoiceFile.t :=
  {| VoiceLibrary.VoiceFile.id := VoiceLibrary.VoiceFile.id file;
     VoiceLibrary.VoiceFile.name := VoiceLibrary.VoiceFile.name file;
     VoiceLibrary.VoiceFile.displayName :=
       VoiceLibrary.VoiceFile.displayName file;
     VoiceLibrary.VoiceFile.duration :=
       VoiceLibrary.getDuration (VoiceLibrary.VoiceFile.id file) audioDurations;
     VoiceLibrary.VoiceFile.category := VoiceLibrary.VoiceFile.category file;
     VoiceLibrary.VoiceFile.difficulty :=
       VoiceLibrary.VoiceFile.difficulty file;
     VoiceLibrary.VoiceFile.description :=
       VoiceLibrary.VoiceFile.description file |}.

(** The address an [Audio] element of a file is created with. *)
Definition audioUrl (file : VoiceLibrary.VoiceFile.t) : jsstring :=
  lit "/voice/" ++ VoiceLibrary.VoiceFile.name file.




(** ** More sample inputs *)

Module SampleMore.

(** The text of [{ KEY: 5 }]. *)
Definition numberEnvelope (key : jsstring) : jsstring :=
  lit "{" ++ Sample.quoted key ++ lit ":5}".

(** [JSON.parse] on a few more texts. *)
Definition parseTable : list (jsstring * jsvalue) :=
  [ (lit "null", JNull);
    (lit "[]", JArr []);
    (numberEnvelope (lit "text"), JObj [(lit "text", JNum 5%num)]);
    (Sample.envelope (lit "text") (lit "null"),
      JObj [(lit "text", JStr (lit "null"))]);
    (Sample.envelope (lit "text") (lit "[]"),
      JObj [(lit "text", JStr (lit "[]"))]) ].

Definition parse (s : jsstring) : option jsvalue :=
  match lookup s parseTable with
  | Some v => Some v
  | None => Sample.parse s
  end.

Definition analyze (w : World.t) (r : AnalysisRequest.t) : outcome jsvalue :=
  result (GeminiAnalysisService.analyzeAnswer parse Sample.prompt w r).

Definition orchestrate (w : World.t) (r : AnalysisRequest.t) : M jsvalue :=
  GeminiAnalysisService.processAudioResponse parse Sample.prompt w r.

(** Relays: unreachable, answering [null], a number for a text, a text that
    is the JSON [null], and a text that is the JSON [[]]. *)
Definition unreachable : World.t := Sample.world None.
Definition nullBody : World.t := Sample.world (Sample.answers 200 (lit "null")).
Definition numberText : World.t :=
  Sample.world (Sample.answers 200 (numberEnvelope (lit "text"))).
Definition nullAnswer : World.t :=
  Sample.world (Sample.answers 200 (Sample.envelope (lit "text") (lit "null"))).
Definition arrayAnswer : World.t :=
  Sample.world (Sample.answers 200 (Sample.envelope (lit "text") (lit "[]"))).

(** A first key that is set but is not a key of the direct API, before a
    second one that is. *)
Definition shadowedKey : World.t :=
  {| World.VITE_GEMINI_API_KEY := Some (lit "sk-123");
     World.VITE_GOOGLE_SPEECH_API_KEY := Some (lit "AIzaSyExample");
     World.GEMINI_PROXY_URL := lit "/api/gemini-proxy";
     World.GEMINI_MODEL := lit "gemini-2.5-flash";
     World.fetch := fun _ _ => None;
     World.now_on_entry := 0%num;
     World.now_after_body := 0%num |}.

(** An answer with the three shapes at once. *)
Definition threeShapes : jsvalue :=
  JObj [ (lit "response", JStr (lit "third"));
         (lit "text", JStr (lit "second"));
         (lit "candidates",
           JArr [JObj [(lit "content",
                        JObj [(lit "parts",
                               JArr [JObj [(lit "text",
                                            JStr (lit "first"))]])])]]) ].

(** [String(n)] on whole numbers; every other Number is not needed. *)
Definition toString (a : number) : jsstring :=
  match number_to_Z a with
  | Some z =>
      if (z <? 0)%Z then lit "-" ++ decimal (Z.to_N (- z))
      else decimal (Z.to_N z)
  | None => lit "NaN"
  end.

(** Audio elements: the first file of the library cannot be loaded, the
    others last 125.5 seconds. *)
Definition firstFails (url : jsstring) : VoiceLibrary.metadata :=
  if Str.eqb url (lit "/voice/The Borrowed Grade (1).mp3")
  then VoiceLibrary.Failed
  else VoiceLibrary.Loaded (Fin (251 # 2)%Q).

(** A request with raw audio: 48000 bytes, a peak of 0.02 over no frame. *)
Definition recorded (transcript : jsstring) (duration : number)
  : AnalysisRequest.t :=
  {| AnalysisRequest.transcript := transcript;
     AnalysisRequest.question := Sample.question;
     AnalysisRequest.audioDuration := duration;
     AnalysisRequest.transcriptionConfidence := Fin (9 # 10)%Q;
     AnalysisRequest.audioBlob := Some {| Blob.size := 48000%num |};
     AnalysisRequest.audioLevelData :=
       Some {| AudioLevelData.maxRms := Fin (2 # 100)%Q;
               AudioLevelData.sumRms := 0%num;
               AudioLevelData.frames := 0%num |} |}.

End SampleMore.

(** * Properties *)

(** ** The embedding on small inputs *)

Example split_spaces_padded :
  split_spaces (lit "  a b ") = [[]; lit "a"; lit "b"; []].
Proof. reflexivity. Qed.

Example split_spaces_empty : split_spaces [] = [[]].
Proof. reflexivity. Qed.

Example countWords_tabs_and_breaks :
  countWords ([9; 104; 105; 10; 8232; 121; 111; 160]%N) = 2.
Proof. reflexivity. Qed.

Example trim_both_sides : trim (lit "  a b  ") = lit "a b".
Proof. reflexivity. Qed.

Example round_ties_up :
  Num.round (Fin (5 # 2)) = 3%num /\ Num.round (Fin (-5 # 2)) = (-2)%num.
Proof. split; reflexivity. Qed.

Example NaN_compares_false :
  Num.lt NaN 10%num = false /\ Num.gt NaN 0%num = false
  /\ Num.ge NaN 2000%num = false /\ Num.le NaN 0%num = false.
Proof. repeat split. Qed.

Example removeCodeFence_plain_fence :
  GeminiAnalysisService.stripCodeFence
    (lit "  ```" ++ [10%N] ++ lit "{}" ++ lit "```  ") = lit "{}".
Proof. reflexivity. Qed.

Example removeCodeFence_no_fence :
  GeminiAnalysisService.stripCodeFence (lit " {} ") = lit "{}".
Proof. reflexivity. Qed.

Example getOwn_array_and_string :
  getOwn (JArr [JNum 7%num; JNull]) (index_key 0) = JNum 7%num
  /\ getOwn (JArr [JNum 7%num; JNull]) (lit "length") = JNum 2%num
  /\ getOwn (JStr (lit "ab")) (index_key 1) = JStr (lit "b")
  /\ getOwn (JNum 5%num) (lit "text") = JUndefined
  /\ getProp JNull (lit "candidates") = None.
Proof. repeat split. Qed.

(** ** Numbers and strings *)

Section NumFacts.

Local Open Scope num_scope.

Lemma lt_true_le_false (a b : number) :
  Num.lt a b = true -> Num.le b a = false.
Proof.
  destruct a, b; simpl; try discriminate; try reflexivity.
  unfold Num.Qlt_bool. intros H. now apply negb_true_iff in H.
Qed.

Lemma le_true_lt_false (a b : number) :
  Num.le a b = true -> Num.lt b a = false.
Proof.
  destruct a, b; simpl; try discriminate; try reflexivity.
  unfold Num.Qlt_bool. intros H. now rewrite H.
Qed.

Lemma of_nat_positive (n : nat) :
  Num.gt (Num.of_nat n) 0 = (0 <? n)%nat.
Proof.
  unfold Num.gt, Num.of_nat, Num.of_Z, Num.lt, Num.Qlt_bool, Qle_bool.
  simpl. rewrite Z.mul_1_r.
  destruct n as [|n]; [reflexivity|].
  simpl (0 <? S n)%nat.
  apply negb_true_iff, Z.leb_gt. lia.
Qed.

(** [Math.min(Math.max(x, 20), 95)] of a finite [x] lies between 20
    and 95. *)
Lemma clamp_20_95 (q : Q) :
  let r := Num.min (Num.max (Fin q) 20) 95 in
  Num.le 20 r = true /\ Num.le r 95 = true.
Proof.
  cbv zeta. unfold Num.max. simpl Num.lt. unfold Num.Qlt_bool.
  destruct (Qle_bool _ q) eqn:Hlo; simpl negb; cbv iota.
  - unfold Num.min. simpl Num.lt. unfold Num.Qlt_bool.
    destruct (Qle_bool q _) eqn:Hhi; simpl negb; cbv iota.
    + simpl. now rewrite Hlo, Hhi.
    + split; reflexivity.
  - split; reflexivity.
Qed.

End NumFacts.

Section StrFacts.

(** While a separator is being read the current piece is empty. *)
Lemma nonEmptyCount_split_go (s : jsstring) :
  forall (in_sep : bool) (cur : jsstring),
    (in_sep = true -> cur = []) ->
    (0 <? nonEmptyCount (split_go in_sep cur s))
    = (0 <? List.length cur) || hasNonSpace s.
Proof.
  induction s as [|c s IH]; intros in_sep cur Hinv; simpl.
  - unfold nonEmptyCount. simpl.
    destruct (0 <? List.length cur); reflexivity.
  - destruct (is_space c) eqn:Hc; simpl.
    + destruct in_sep.
      * rewrite (Hinv eq_refl). now rewrite IH.
      * unfold nonEmptyCount in *. simpl.
        destruct (0 <? List.length cur) eqn:Hcur; simpl; [reflexivity|].
        now rewrite IH.
    + rewrite IH by discriminate.
      rewrite length_app. simpl.
      replace (0 <? List.length cur + 1) with true
        by (symmetry; apply Nat.ltb_lt; lia).
      now rewrite orb_true_r.
Qed.

Lemma countWords_positive (s : jsstring) :
  (0 <? countWords s) = hasNonSpace s.
Proof.
  unfold countWords, split_spaces.
  change (List.length (filter _ ?l)) with (nonEmptyCount l).
  now rewrite nonEmptyCount_split_go.
Qed.

Lemma countWords_empty : countWords [] = 0.
Proof. reflexivity. Qed.

Lemma trimStart_nonEmpty (s : jsstring) :
  (0 <? List.length (trimStart s)) = hasNonSpace s.
Proof.
  induction s as [|c s IH]; simpl; [reflexivity|].
  destruct (is_space c); simpl; [exact IH | reflexivity].
Qed.

Lemma hasNonSpace_trimStart (s : jsstring) :
  hasNonSpace (trimStart s) = hasNonSpace s.
Proof.
  induction s as [|c s IH]; simpl; [reflexivity|].
  destruct (is_space c) eqn:Hc; simpl; [exact IH | now rewrite Hc].
Qed.

Lemma hasNonSpace_rev (s : jsstring) :
  hasNonSpace (rev s) = hasNonSpace s.
Proof.
  unfold hasNonSpace. induction s as [|c s IH]; simpl; [reflexivity|].
  rewrite existsb_app, IH. simpl. rewrite orb_false_r. apply orb_comm.
Qed.

(** The test of the orchestrator, [transcript.trim().length > 0], holds
    exactly when the transcript has a unit that is not white space, which
    is also when it has a word. *)
Lemma trim_nonEmpty (s : jsstring) :
  (0 <? List.length (trim s)) = hasNonSpace s.
Proof.
  unfold trim, trimEnd. rewrite length_rev, trimStart_nonEmpty.
  now rewrite hasNonSpace_rev, hasNonSpace_trimStart.
Qed.

Lemma trim_nonEmpty_countWords (s : jsstring) :
  (0 <? List.length (trim s)) = (0 <? countWords s).
Proof. now rewrite trim_nonEmpty, countWords_positive. Qed.

End StrFacts.

(** ** The heuristic scorer and the metrics extractor *)

Section StaticFacts.

Import StaticAnalysisService.
Local Open Scope num_scope.

(** C2. For every Audio Metrics value, [generateStaticAnalysis] gives
    overallScore 0 when voice is absent, 20 when voice is present and the
    duration is below 10 seconds, and 50 otherwise; the five sub-scores are
    60, 50, 40, 30 and 50 when voice is present and all 0 when it is absent.
    Hence the overall score is one of 0, 20 and 50 and every sub-score lies
    in [0,100]. *)
Theorem generateStaticAnalysis_scores (metrics : AudioMetrics.t) :
  let r := generateStaticAnalysis metrics in
  let s := AnswerAnalysis.scores r in
  (AudioMetrics.hasVoice metrics = false ->
     AnswerAnalysis.overallScore r = 0
     /\ Scores.clarity s = 0 /\ Scores.relevance s = 0
     /\ Scores.structure s = 0 /\ Scores.completeness s = 0
     /\ Scores.confidence s = 0)
  /\ (AudioMetrics.hasVoice metrics = true ->
        (Num.lt (AudioMetrics.duration metrics) 10 = true ->
           AnswerAnalysis.overallScore r = 20)
        /\ (Num.lt (AudioMetrics.duration metrics) 10 = false ->
              AnswerAnalysis.overallScore r = 50)
        /\ Scores.clarity s = 60 /\ Scores.relevance s = 50
        /\ Scores.structure s = 40 /\ Scores.completeness s = 30
        /\ Scores.confidence s = 50)
  /\ In (AnswerAnalysis.overallScore r) [0; 20; 50]
  /\ inRange0_100 (Scores.clarity s) = true
  /\ inRange0_100 (Scores.relevance s) = true
  /\ inRange0_100 (Scores.structure s) = true
  /\ inRange0_100 (Scores.completeness s) = true
  /\ inRange0_100 (Scores.confidence s) = true.
Proof.
  destruct metrics as [duration hasVoice transcript wordCount avgRms maxRms].
  cbv zeta. unfold generateStaticAnalysis. simpl.
  destruct hasVoice; simpl.
  - split; [discriminate|]. split.
    + intros _. repeat split; try reflexivity; intros ->; reflexivity.
    + destruct (Num.lt duration 10); simpl; intuition.
  - split; [intros _; repeat split; reflexivity|].
    split; [discriminate|]. simpl; intuition.
Qed.

Lemma generateStaticAnalysis_scores_witness :
  AnswerAnalysis.overallScore (generateStaticAnalysis (Sample.metrics_of 5 false)) = 0
  /\ AnswerAnalysis.overallScore (generateStaticAnalysis (Sample.metrics_of 5 true)) = 20
  /\ AnswerAnalysis.overallScore (generateStaticAnalysis (Sample.metrics_of 60 true)) = 50
  /\ AnswerAnalysis.overallScore (generateStaticAnalysis (Sample.metrics_of NaN true)) = 50.
Proof.
  split; [|split; [|split]].
  - apply (proj1 (generateStaticAnalysis_scores (Sample.metrics_of 5 false))).
    reflexivity.
  - apply (proj2 (generateStaticAnalysis_scores (Sample.metrics_of 5 true)));
      reflexivity.
  - apply (proj2 (generateStaticAnalysis_scores (Sample.metrics_of 60 true)));
      reflexivity.
  - apply (proj2 (generateStaticAnalysis_scores (Sample.metrics_of NaN true)));
      reflexivity.
Defined.

(** C3. Whenever the transcript has at least one word, the metrics
    extractor reports voice, whatever the byte size, the duration and the
    two signal levels are. *)
Theorem analyzeAudioMetrics_words_give_voice
    (audioBlob : Blob.t) (duration : number) (transcript : jsstring)
    (audioLevelData : AudioLevelData.t) :
  (0 < countWords transcript)%nat ->
  AudioMetrics.hasVoice
    (analyzeAudioMetrics audioBlob duration transcript audioLevelData) = true.
Proof.
  intros Hw. unfold analyzeAudioMetrics. cbv zeta.
  cbn [AudioMetrics.hasVoice]. rewrite of_nat_positive.
  apply Nat.ltb_lt in Hw. rewrite Hw. apply orb_true_r.
Qed.

Lemma analyzeAudioMetrics_words_give_voice_witness :
  (0 < countWords (lit "hello world"))%nat
  /\ AudioMetrics.hasVoice
       (analyzeAudioMetrics {| Blob.size := 0 |} 0 (lit "hello world") Sample.silence)
     = true.
Proof.
  assert (H : (0 < countWords (lit "hello world"))%nat) by (vm_compute; lia).
  split; [exact H|].
  exact (analyzeAudioMetrics_words_give_voice
           {| Blob.size := 0 |} 0 (lit "hello world") Sample.silence H).
Defined.

(** C4. With no word in the transcript and a byte size below 2000 the
    metrics extractor reports no voice; in particular for a duration of 5
    seconds, an empty transcript and 500 bytes. *)
Theorem analyzeAudioMetrics_small_silent
    (audioBlob : Blob.t) (duration : number) (transcript : jsstring)
    (audioLevelData : AudioLevelData.t) :
  (countWords transcript = 0%nat ->
   Num.lt (Blob.size audioBlob) 2000 = true ->
   AudioMetrics.hasVoice
     (analyzeAudioMetrics audioBlob duration transcript audioLevelData) = false)
  /\ AudioMetrics.hasVoice
       (analyzeAudioMetrics {| Blob.size := 500 |} 5 [] audioLevelData) = false.
Proof.
  assert (G : forall b d t,
    countWords t = 0%nat -> Num.lt (Blob.size b) 2000 = true ->
    AudioMetrics.hasVoice (analyzeAudioMetrics b d t audioLevelData) = false).
  { intros b d t Hw Hs. unfold analyzeAudioMetrics. cbv zeta.
    cbn [AudioMetrics.hasVoice]. rewrite of_nat_positive, Hw. unfold Num.ge.
    rewrite (lt_true_le_false _ _ Hs).
    now rewrite andb_false_r. }
  split; [apply G|]. apply G; reflexivity.
Qed.

Lemma analyzeAudioMetrics_small_silent_witness :
  countWords (lit "  ") = 0%nat
  /\ Num.lt (Blob.size {| Blob.size := 1999 |}) 2000 = true
  /\ AudioMetrics.hasVoice
       (analyzeAudioMetrics {| Blob.size := 1999 |} 5 (lit "  ")
          {| AudioLevelData.maxRms := 1; AudioLevelData.sumRms := 10;
             AudioLevelData.frames := 10 |}) = false.
Proof.
  split; [reflexivity|]. split; [reflexivity|].
  apply (proj1 (analyzeAudioMetrics_small_silent
                  {| Blob.size := 1999 |} 5 (lit "  ")
                  {| AudioLevelData.maxRms := 1; AudioLevelData.sumRms := 10;
                     AudioLevelData.frames := 10 |})); reflexivity.
Defined.

(** C10. For every transcript and every duration, [generateQuickFeedback]
    gives an estimatedScore between 20 and 95, and a wordsPerMinute of 0
    whenever the duration is at most 0. *)
Theorem generateQuickFeedback_bounds (transcript : jsstring) (duration : number) :
  let r := generateQuickFeedback transcript duration in
  Num.le 20 (QuickFeedback.estimatedScore r) = true
  /\ Num.le (QuickFeedback.estimatedScore r) 95 = true
  /\ (Num.le duration 0 = true -> QuickFeedback.wordsPerMinute r = 0).
Proof.
  cbv zeta. unfold generateQuickFeedback. cbv zeta.
  cbn [QuickFeedback.estimatedScore QuickFeedback.wordsPerMinute].
  split; [|split].
  - apply (clamp_20_95 _).
  - apply (clamp_20_95 _).
  - intros Hd. unfold Num.gt. now rewrite (le_true_lt_false _ _ Hd).
Qed.

Lemma generateQuickFeedback_bounds_witness :
  Num.le (-3) 0 = true
  /\ QuickFeedback.wordsPerMinute
       (generateQuickFeedback (lit "one two three") (-3)) = 0.
Proof.
  split; [reflexivity|].
  apply (proj2 (proj2 (generateQuickFeedback_bounds (lit "one two three") (-3)))).
  reflexivity.
Defined.

End StaticFacts.

(** ** The monad: outcomes do not depend on the calls already made *)

Section EffFacts.

Lemma uniform_ret {A} (a : A) : uniform (ret a).
Proof. intros tr. unfold ret, result, calls. simpl. now rewrite app_nil_r. Qed.

Lemma uniform_throw {A} (e : error) : uniform (@throw A e).
Proof. intros tr. unfold throw, result, calls. simpl. now rewrite app_nil_r. Qed.

Lemma uniform_emit (e : event) : uniform (emit e).
Proof. intros tr. reflexivity. Qed.

Lemma uniform_orThrow {A} (e : error) (o : option A) : uniform (orThrow e o).
Proof. destruct o; [apply uniform_ret | apply uniform_throw]. Qed.

Lemma uniform_bind {A B} (c : M A) (k : A -> M B) :
  uniform c -> (forall a, uniform (k a)) -> uniform (Eff.bind c k).
Proof.
  intros Hc Hk tr. unfold Eff.bind, result, calls.
  rewrite (Hc tr), (Hc []). simpl app.
  destruct (result c) as [a|e]; simpl.
  - rewrite (Hk a (tr ++ calls c)), (Hk a (calls c)). simpl.
    now rewrite app_assoc.
  - reflexivity.
Qed.

Lemma uniform_tryCatch {A} (c : M A) (h : error -> M A) :
  uniform c -> (forall e, uniform (h e)) -> uniform (tryCatch c h).
Proof.
  intros Hc Hh tr. unfold tryCatch, result, calls.
  rewrite (Hc tr), (Hc []). simpl app.
  destruct (result c) as [a|e]; simpl.
  - reflexivity.
  - rewrite (Hh e (tr ++ calls c)), (Hh e (calls c)). simpl.
    now rewrite app_assoc.
Qed.

Lemma result_bind {A B} (c : M A) (k : A -> M B) :
  uniform c -> (forall a, uniform (k a)) ->
  result (Eff.bind c k)
  = match result c with
    | Returned a => result (k a)
    | Thrown e => Thrown e
    end.
Proof.
  intros Hc Hk. unfold result at 1. unfold Eff.bind. rewrite (Hc []).
  destruct (result c) as [a|e]; [|reflexivity]. now rewrite (Hk a).
Qed.

Lemma calls_bind {A B} (c : M A) (k : A -> M B) :
  uniform c -> (forall a, uniform (k a)) ->
  calls (Eff.bind c k)
  = calls c ++ match result c with
               | Returned a => calls (k a)
               | Thrown e => []
               end.
Proof.
  intros Hc Hk. unfold calls at 1. unfold Eff.bind. rewrite (Hc []).
  destruct (result c) as [a|e]; [|simpl; now rewrite app_nil_r].
  now rewrite (Hk a).
Qed.

Lemma result_tryCatch {A} (c : M A) (h : error -> M A) :
  uniform c -> (forall e, uniform (h e)) ->
  result (tryCatch c h)
  = match result c with
    | Returned a => Returned a
    | Thrown e => result (h e)
    end.
Proof.
  intros Hc Hh. unfold result at 1. unfold tryCatch. rewrite (Hc []).
  destruct (result c) as [a|e]; [reflexivity|]. now rewrite (Hh e).
Qed.

Lemma calls_tryCatch {A} (c : M A) (h : error -> M A) :
  uniform c -> (forall e, uniform (h e)) ->
  calls (tryCatch c h)
  = calls c ++ match result c with
               | Returned a => []
               | Thrown e => calls (h e)
               end.
Proof.
  intros Hc Hh. unfold calls at 1. unfold tryCatch. rewrite (Hc []).
  destruct (result c) as [a|e]; [simpl; now rewrite app_nil_r|].
  now rewrite (Hh e).
Qed.

(** [try { c } catch (error) { throw error }] is [c]. *)
Lemma result_rethrow {A} (c : M A) :
  uniform c -> result (tryCatch c (fun e => throw e)) = result c.
Proof.
  intros Hc. rewrite result_tryCatch by (auto using uniform_throw).
  destruct (result c); reflexivity.
Qed.

Lemma calls_rethrow {A} (c : M A) :
  uniform c -> calls (tryCatch c (fun e => throw e)) = calls c.
Proof.
  intros Hc. rewrite calls_tryCatch by (auto using uniform_throw).
  destruct (result c); apply app_nil_r.
Qed.

(** Computations that make no call. *)
Lemma calls_ret {A} (a : A) : calls (ret a) = [].
Proof. reflexivity. Qed.

Lemma calls_throw {A} (e : error) : calls (@throw A e) = [].
Proof. reflexivity. Qed.

Lemma calls_orThrow {A} (e : error) (o : option A) : calls (orThrow e o) = [].
Proof. destruct o; reflexivity. Qed.

Lemma silent_bind {A B} (c : M A) (k : A -> M B) :
  uniform c -> (forall a, uniform (k a)) ->
  calls c = [] -> (forall a, calls (k a) = []) -> calls (Eff.bind c k) = [].
Proof.
  intros Hc Hk Sc Sk. rewrite calls_bind, Sc by assumption.
  destruct (result c); simpl; auto.
Qed.

End EffFacts.

Create HintDb uniform.
#[export] Hint Resolve uniform_ret uniform_throw uniform_emit uniform_orThrow
  : uniform.

(** Splits a goal [uniform c] along the shape of [c], after the lemmas
    already known. *)
Ltac prove_uniform :=
  repeat (intros;
          first [ solve [auto with uniform nocore]
                | match goal with
                  | |- uniform (Eff.bind _ _) => apply uniform_bind
                  | |- uniform (tryCatch _ _) => apply uniform_tryCatch
                  | |- uniform (if ?b then _ else _) => destruct b
                  | |- uniform (match ?x with _ => _ end) => destruct x
                  end ]).

(** Splits a goal [calls c = []] along the shape of [c]. *)
Ltac prove_silent :=
  repeat (intros;
          first [ apply calls_ret | apply calls_throw | apply calls_orThrow
                | match goal with
                  | |- calls (Eff.bind _ _) = [] =>
                      apply silent_bind; [prove_uniform | prove_uniform | |]
                  | |- calls (if ?b then _ else _) = [] => destruct b
                  | |- calls (match ?x with _ => _ end) = [] => destruct x
                  end ]).

(** ** The remote client *)

Section ServiceFacts.

Import GeminiAnalysisService.
Local Open Scope eff_scope.

Variable JSON_parse : jsstring -> option jsvalue.
Variable generateAnalysisPrompt :
  InterviewQuestion.t -> jsstring -> number -> number -> jsstring.
Variable w : World.t.

Local Abbreviation analyzeAnswer :=
  (analyzeAnswer JSON_parse generateAnalysisPrompt w).
Local Abbreviation processAudioResponse :=
  (processAudioResponse JSON_parse generateAnalysisPrompt w).
Local Abbreviation endpoint := (endpoint w).
Local Abbreviation requestBody := (requestBody generateAnalysisPrompt w).
Local Abbreviation elapsed := (elapsed w).

Lemma uniform_callTrim (v : jsvalue) : uniform (callTrim v).
Proof. unfold callTrim. prove_uniform. Qed.

Lemma uniform_extractText (data : jsvalue) : uniform (extractText data).
Proof. unfold extractText. prove_uniform. Qed.

Lemma uniform_overlay (a : jsvalue) (request : AnalysisRequest.t) (p : number) :
  uniform (overlay a request p).
Proof. unfold overlay. prove_uniform. Qed.

Lemma uniform_responseJson (r : Response.t) : uniform (responseJson JSON_parse r).
Proof. unfold responseJson. prove_uniform. Qed.

Lemma uniform_doFetch (url : jsstring) (body : jsvalue) :
  uniform (doFetch w url body).
Proof. unfold doFetch. prove_uniform. Qed.

#[local] Hint Resolve uniform_callTrim uniform_extractText uniform_overlay
  uniform_responseJson uniform_doFetch : uniform.

Lemma uniform_analyzeAnswer (request : AnalysisRequest.t) :
  uniform (analyzeAnswer request).
Proof. unfold GeminiAnalysisService.analyzeAnswer. prove_uniform. Qed.

#[local] Hint Resolve uniform_analyzeAnswer : uniform.

Lemma uniform_processAudioResponse (request : AnalysisRequest.t) :
  uniform (processAudioResponse request).
Proof.
  unfold GeminiAnalysisService.processAudioResponse, call_analyzeAnswer,
    call_analyzeAudioMetrics, call_generateStaticAnalysis,
    call_static_analyzeAnswer, call_generateStaticAnalysis.
  prove_uniform.
Qed.

Lemma silent_callTrim (v : jsvalue) : calls (callTrim v) = [].
Proof. unfold callTrim. prove_silent. Qed.

Lemma silent_extractText (data : jsvalue) : calls (extractText data) = [].
Proof. unfold extractText. prove_silent. Qed.

Lemma silent_overlay (a : jsvalue) (request : AnalysisRequest.t) (p : number) :
  calls (overlay a request p) = [].
Proof. unfold overlay. prove_silent. Qed.

Lemma silent_responseJson (r : Response.t) :
  calls (responseJson JSON_parse r) = [].
Proof. unfold responseJson. prove_silent. Qed.

(** The outcome of [analyzeAnswer], step by step. *)
Lemma analyzeAnswer_result (request : AnalysisRequest.t) :
  result (analyzeAnswer request)
  = match World.fetch w endpoint (requestBody request) with
    | None => Thrown Rejected
    | Some response =>
        if negb (Response.ok response)
        then match Response.text response with
             | None => Thrown Rejected
             | Some errorText =>
                 Thrown (Error_ (lit "Gemini API error ("
                                 ++ decimal (Response.status response)
                                 ++ lit "): " ++ substring0 100 errorText))
             end
        else match Response.text response with
             | None => Thrown Rejected
             | Some body =>
                 match JSON_parse body with
                 | None => Thrown SyntaxError
                 | Some data =>
                     match result (extractText data) with
                     | Thrown e => Thrown e
                     | Returned (JStr s) =>
                         match JSON_parse (stripCodeFence s) with
                         | None => Thrown SyntaxError
                         | Some analysisResult =>
                             result (overlay analysisResult request elapsed)
                         end
                     | Returned _ => Thrown TypeError
                     end
                 end
             end
    end.
Proof.
  unfold GeminiAnalysisService.analyzeAnswer, endpoint, requestBody.
  rewrite result_rethrow by prove_uniform.
  rewrite result_bind by prove_uniform.
  assert (Hfetch : forall url body,
            result (doFetch w url body)
            = match World.fetch w url body with
              | Some r => Returned r
              | None => Thrown Rejected
              end).
  { intros url body. unfold doFetch, result, Eff.bind, emit, orThrow. simpl.
    destruct (World.fetch w url body); reflexivity. }
  replace (result (if useDirectApi w then _ else _))
    with (match World.fetch w endpoint (requestBody request) with
          | Some r => Returned r
          | None => Thrown Rejected
          end : outcome Response.t)
    by (unfold endpoint, requestBody; destruct (useDirectApi w);
        now rewrite Hfetch).
  unfold endpoint, requestBody.
  destruct (World.fetch w _ _) as [response|]; [|reflexivity].
  rewrite result_bind by prove_uniform.
  destruct (negb (Response.ok response)).
  - rewrite result_bind by prove_uniform.
    destruct (Response.text response); reflexivity.
  - change (result (ret tt)) with (Returned tt).
    rewrite result_bind by prove_uniform.
    unfold responseJson at 1. rewrite result_bind by prove_uniform.
    destruct (Response.text response) as [body|]; [|reflexivity].
    change (result (orThrow Rejected (Some body))) with (Returned body).
    cbv beta iota.
    destruct (JSON_parse body) as [data|]; [|reflexivity].
    change (result (orThrow SyntaxError (Some data))) with (Returned data).
    cbv beta iota. rewrite result_bind by prove_uniform.
    destruct (result (extractText data)) as [a|e]; [|reflexivity].
    rewrite result_bind by prove_uniform.
    unfold stripCodeFence.
    destruct a; try reflexivity.
    change (result (callTrim (JStr s))) with (Returned (trim s)).
    cbv beta iota. rewrite result_bind by prove_uniform.
    destruct (JSON_parse _); reflexivity.
Qed.

(** The remote client makes one call, the [fetch]. *)
Lemma analyzeAnswer_calls (request : AnalysisRequest.t) :
  calls (analyzeAnswer request) = [Call_fetch endpoint].
Proof.
  unfold GeminiAnalysisService.analyzeAnswer.
  rewrite calls_rethrow by prove_uniform.
  rewrite calls_bind by prove_uniform.
  assert (Hfetch : forall url body,
            calls (doFetch w url body) = [Call_fetch url]).
  { intros url body. unfold doFetch, calls, Eff.bind, emit, orThrow. simpl.
    destruct (World.fetch w url body); reflexivity. }
  replace (calls (if useDirectApi w then _ else _))
    with [Call_fetch endpoint]
    by (unfold endpoint; destruct (useDirectApi w); now rewrite Hfetch).
  match goal with
  | |- _ ++ match _ with Returned a => calls (@?k a) | Thrown _ => [] end = _ =>
      assert (Hk : forall a, calls (k a) = [])
  end.
  { intros response. cbv beta.
    prove_silent;
      auto using silent_callTrim, silent_extractText, silent_overlay,
                 silent_responseJson. }
  cbv beta in Hk.
  match goal with
  | |- _ ++ match ?r with _ => _ end = _ => destruct r
  end; [rewrite Hk|]; reflexivity.
Qed.

End ServiceFacts.

(** ** Code fences *)

Section FenceFacts.

Import GeminiAnalysisService.

Lemma trimEnd_fence (s : jsstring) :
  trimEnd (s ++ [LF] ++ lit "```") = s ++ [LF] ++ lit "```".
Proof.
  unfold trimEnd. rewrite rev_app_distr.
  change (rev ([LF] ++ lit "```")) with ([96; 96; 96; 10]%N).
  change (trimStart ([96; 96; 96; 10]%N ++ rev s))
    with ([96; 96; 96; 10]%N ++ rev s).
  rewrite rev_app_distr, rev_involutive. reflexivity.
Qed.

Lemma dropClosingFence_fence (s : jsstring) :
  dropClosingFence (s ++ [LF] ++ lit "```") = s.
Proof.
  unfold dropClosingFence. rewrite rev_app_distr.
  change (rev ([LF] ++ lit "```") ++ rev s)
    with (96 :: 96 :: 96 :: 10 :: rev s)%N.
  apply rev_involutive.
Qed.

(** C8. Stripping the code fence from [```json\n] ++ s ++ [\n```] gives
    back [s]. This holds for every inner text [s], so in particular for
    those that neither begin nor end with a fence marker. *)
Theorem stripCodeFence_roundtrip (s : jsstring) :
  stripCodeFence (fenced s) = s.
Proof.
  unfold stripCodeFence, fenced, trim.
  change (trimStart (lit "```json" ++ [LF] ++ s ++ [LF] ++ lit "```"))
    with (lit "```json" ++ [LF] ++ s ++ [LF] ++ lit "```").
  replace (lit "```json" ++ [LF] ++ s ++ [LF] ++ lit "```")
    with ((lit "```json" ++ [LF] ++ s) ++ [LF] ++ lit "```")
    by (now rewrite <- !app_assoc).
  rewrite trimEnd_fence.
  unfold removeCodeFence.
  change (startsWith ((lit "```json" ++ [LF] ++ s) ++ [LF] ++ lit "```")
            (lit "```json")) with true.
  cbv iota.
  change (dropOpeningFence (lit "```json")
            ((lit "```json" ++ [LF] ++ s) ++ [LF] ++ lit "```"))
    with (s ++ [LF] ++ lit "```").
  apply dropClosingFence_fence.
Qed.

End FenceFacts.

(** ** Objects *)

Section PropsFacts.

Lemma eqb_eq (s t : jsstring) : Str.eqb s t = true <-> s = t.
Proof.
  unfold Str.eqb. destruct (list_eq_dec N.eq_dec s t); split;
    congruence || auto.
Qed.

Lemma eqb_refl (s : jsstring) : Str.eqb s s = true.
Proof. now apply eqb_eq. Qed.

Lemma eqb_neq (s t : jsstring) : s <> t -> Str.eqb s t = false.
Proof.
  intros H. destruct (Str.eqb s t) eqn:E; [|reflexivity].
  now apply eqb_eq in E.
Qed.

Lemma lookup_setProp_same (k : jsstring) (v : jsvalue) (ps : props) :
  lookup k (setProp k v ps) = Some v.
Proof.
  induction ps as [|[k' v'] ps IH]; simpl.
  - now rewrite eqb_refl.
  - destruct (Str.eqb k k') eqn:E; simpl.
    + now rewrite eqb_refl.
    + now rewrite E.
Qed.

Lemma lookup_setProp_other (k k0 : jsstring) (v : jsvalue) (ps : props) :
  k0 <> k -> lookup k0 (setProp k v ps) = lookup k0 ps.
Proof.
  intros Hne. induction ps as [|[k' v'] ps IH]; simpl.
  - now rewrite (eqb_neq Hne).
  - destruct (Str.eqb k k') eqn:E; simpl.
    + apply eqb_eq in E. subst k'. now rewrite (eqb_neq Hne).
    + now rewrite IH.
Qed.

(** Reading a property of an object literal. *)
Lemma getOwn_JObj (ps : props) (k : jsstring) :
  getOwn (JObj ps) k
  = match lookup k ps with Some x => x | None => JUndefined end.
Proof. reflexivity. Qed.

(** A name other than [length] is read from the own properties only. *)
Lemma getOwn_lookup (v : jsvalue) (k : jsstring) :
  k <> lit "length" ->
  getOwn v k
  = match lookup k (ownProps v) with Some x => x | None => JUndefined end.
Proof.
  intros Hk. unfold getOwn.
  destruct (lookup k (ownProps v)); [reflexivity|].
  destruct v; try reflexivity; now rewrite (eqb_neq Hk).
Qed.

End PropsFacts.

(** ** Failures and successes of the remote client *)

Section RemoteFacts.

Import GeminiAnalysisService.

Variable JSON_parse : jsstring -> option jsvalue.
Variable generateAnalysisPrompt :
  InterviewQuestion.t -> jsstring -> number -> number -> jsstring.
Variable w : World.t.

Local Abbreviation analyzeAnswer :=
  (analyzeAnswer JSON_parse generateAnalysisPrompt w).
Local Abbreviation endpoint := (endpoint w).
Local Abbreviation requestBody := (requestBody generateAnalysisPrompt w).

Lemma extractText_no_shape (data : jsvalue) :
  directApiShape data = false ->
  relayTextShape data = false ->
  relayResponseShape data = false ->
  exists e, result (extractText data) = Thrown e.
Proof.
  unfold directApiShape, relayTextShape, relayResponseShape, optProp.
  unfold extractText, getProp.
  destruct (nullish data) eqn:Hn; intros H1 H2 H3.
  - exists TypeError. reflexivity.
  - exists (Error_ (lit "No analysis results received from Gemini")).
    unfold result, Eff.bind, orThrow, ret. cbv beta iota.
    rewrite H1, H2, H3. reflexivity.
Qed.

(** C5. The remote client fails, with no report returned, when the answer
    has a non-success status (the error then carries at most the first 100
    units of the body), when the answer has none of the three recognised
    shapes, and when the extracted text is not JSON. *)
Theorem analyzeAnswer_failures
    (request : AnalysisRequest.t) (response : Response.t) :
  World.fetch w endpoint (requestBody request) = Some response ->
  (Response.ok response = false ->
   exists e,
     result (analyzeAnswer request) = Thrown e
     /\ forall errorText,
          Response.text response = Some errorText ->
          List.length (substring0 100 errorText) <= 100
          /\ e = Error_ (lit "Gemini API error ("
                         ++ decimal (Response.status response)
                         ++ lit "): " ++ substring0 100 errorText))
  /\ (forall body data,
        Response.ok response = true ->
        Response.text response = Some body ->
        JSON_parse body = Some data ->
        directApiShape data = false ->
        relayTextShape data = false ->
        relayResponseShape data = false ->
        exists e, result (analyzeAnswer request) = Thrown e)
  /\ (forall body data s,
        Response.ok response = true ->
        Response.text response = Some body ->
        JSON_parse body = Some data ->
        result (extractText data) = Returned (JStr s) ->
        JSON_parse (stripCodeFence s) = None ->
        result (analyzeAnswer request) = Thrown SyntaxError).
Proof.
  intros Hfetch. rewrite analyzeAnswer_result, Hfetch.
  split; [|split].
  - intros Hok. rewrite Hok. simpl negb. cbv iota.
    destruct (Response.text response) as [errorText|].
    + eexists. split; [reflexivity|]. intros t [= <-].
      split; [apply firstn_le_length | reflexivity].
    + eexists. split; [reflexivity|]. discriminate.
  - intros body data Hok Hbody Hdata H1 H2 H3.
    rewrite Hok, Hbody, Hdata. simpl negb. cbv iota.
    destruct (extractText_no_shape data H1 H2 H3) as [e He].
    rewrite He. now exists e.
  - intros body data s Hok Hbody Hdata Hs Hparse.
    rewrite Hok, Hbody, Hdata, Hs, Hparse. reflexivity.
Qed.

End RemoteFacts.

Lemma analyzeAnswer_failures_witness :
  Sample.analyze Sample.serverError Sample.hello
  = Thrown (Error_ (lit "Gemini API error (500): Internal Server Error"))
  /\ (exists e, Sample.analyze Sample.emptyObject Sample.hello = Thrown e)
  /\ Sample.analyze Sample.notJson Sample.hello = Thrown SyntaxError.
Proof.
  unfold Sample.analyze. split; [|split].
  - destruct (proj1 (analyzeAnswer_failures Sample.parse Sample.prompt
                       Sample.serverError Sample.hello eq_refl) eq_refl)
      as [e [He Hmsg]].
    rewrite He. f_equal.
    exact (proj2 (Hmsg (lit "Internal Server Error") eq_refl)).
  - exact (proj1 (proj2 (analyzeAnswer_failures Sample.parse Sample.prompt
                           Sample.emptyObject Sample.hello eq_refl))
             (lit "{}") (JObj []) eq_refl eq_refl eq_refl
             eq_refl eq_refl eq_refl).
  - exact (proj2 (proj2 (analyzeAnswer_failures Sample.parse Sample.prompt
                           Sample.notJson Sample.hello eq_refl))
             (Sample.envelope (lit "text") (lit "oops"))
             (JObj [(lit "text", JStr (lit "oops"))]) (lit "oops")
             eq_refl eq_refl eq_refl eq_refl eq_refl).
Defined.

Section OverlayFacts.

Import GeminiAnalysisService.

Variable JSON_parse : jsstring -> option jsvalue.
Variable generateAnalysisPrompt :
  InterviewQuestion.t -> jsstring -> number -> number -> jsstring.
Variable w : World.t.

Local Abbreviation analyzeAnswer :=
  (analyzeAnswer JSON_parse generateAnalysisPrompt w).

(** Two literal names differ. *)
Ltac neq_lit := let H := fresh in intro H; vm_compute in H; discriminate H.

Lemma overlay_result (a : jsvalue) (request : AnalysisRequest.t)
    (p : number) (v : jsvalue) :
  result (overlay a request p) = Returned v ->
  v = JObj
        (setProp (lit "processingTime") (JNum p)
           (setProp (lit "timeManagement")
              (JObj (setProp (lit "duration")
                       (JNum (AnalysisRequest.audioDuration request))
                       (ownProps (getOwn a (lit "timeManagement")))))
              (setProp (lit "transcript")
                 (JStr (AnalysisRequest.transcript request))
                 (ownProps a)))).
Proof.
  unfold overlay, result, Eff.bind, orThrow, getProp, ret, throw.
  destruct (nullish a); simpl; [discriminate|]. now intros [= <-].
Qed.

(** What the returned object holds, against the parsed answer [a]. *)
Lemma overlay_fields (a : jsvalue) (request : AnalysisRequest.t)
    (p : number) (v : jsvalue) :
  result (overlay a request p) = Returned v ->
  getOwn v (lit "transcript") = JStr (AnalysisRequest.transcript request)
  /\ getOwn (getOwn v (lit "timeManagement")) (lit "duration")
     = JNum (AnalysisRequest.audioDuration request)
  /\ getOwn v (lit "processingTime") = JNum p
  /\ (forall k,
        k <> lit "transcript" -> k <> lit "timeManagement" ->
        k <> lit "processingTime" ->
        lookup k (ownProps v) = lookup k (ownProps a))
  /\ (forall k,
        k <> lit "duration" ->
        lookup k (ownProps (getOwn v (lit "timeManagement")))
        = lookup k (ownProps (getOwn a (lit "timeManagement")))).
Proof.
  intros H. apply overlay_result in H. subst v.
  assert (Htm : forall ps x,
            getOwn (JObj (setProp (lit "processingTime") x
                            (setProp (lit "timeManagement")
                               (JObj (setProp (lit "duration")
                                        (JNum (AnalysisRequest.audioDuration request))
                                        (ownProps (getOwn a (lit "timeManagement")))))
                               ps)))
                   (lit "timeManagement")
            = JObj (setProp (lit "duration")
                      (JNum (AnalysisRequest.audioDuration request))
                      (ownProps (getOwn a (lit "timeManagement"))))).
  { intros ps x. rewrite getOwn_JObj.
    rewrite lookup_setProp_other by neq_lit.
    now rewrite lookup_setProp_same. }
  split; [|split; [|split; [|split]]].
  - rewrite getOwn_JObj.
    rewrite !lookup_setProp_other by neq_lit.
    now rewrite lookup_setProp_same.
  - rewrite Htm, getOwn_JObj. now rewrite lookup_setProp_same.
  - rewrite getOwn_JObj. now rewrite lookup_setProp_same.
  - intros k H1 H2 H3. simpl ownProps at 1.
    now rewrite !lookup_setProp_other by assumption.
  - intros k Hk. rewrite Htm. simpl ownProps at 1.
    now rewrite lookup_setProp_other by assumption.
Qed.

(** A success of the remote client went through every step. *)
Lemma analyzeAnswer_returned (request : AnalysisRequest.t) (v : jsvalue) :
  result (analyzeAnswer request) = Returned v ->
  exists (response : Response.t) (body : jsstring) (data : jsvalue)
         (s : jsstring) (analysisResult : jsvalue),
    World.fetch w (endpoint w) (requestBody generateAnalysisPrompt w request)
    = Some response
    /\ Response.text response = Some body
    /\ JSON_parse body = Some data
    /\ result (extractText data) = Returned (JStr s)
    /\ JSON_parse (stripCodeFence s) = Some analysisResult
    /\ result (overlay analysisResult request (elapsed w)) = Returned v.
Proof.
  rewrite analyzeAnswer_result. fold (endpoint w).
  destruct (World.fetch w _ _) as [response|] eqn:Hfetch; [|discriminate].
  destruct (negb (Response.ok response)).
  { destruct (Response.text response); discriminate. }
  destruct (Response.text response) as [body|] eqn:Hbody; [|discriminate].
  destruct (JSON_parse body) as [data|] eqn:Hdata; [|discriminate].
  destruct (result (extractText data)) as [a|e] eqn:Htext; [|discriminate].
  destruct a; try discriminate.
  destruct (JSON_parse (stripCodeFence s)) as [analysisResult|] eqn:Hres;
    [|discriminate].
  intros Hv. exists response, body, data, s, analysisResult. auto 10.
Qed.

(** C6. When the remote client succeeds, the report has the transcript of
    the request, the measured duration of the request under
    timeManagement.duration, and the elapsed time as processingTime; every
    other property, among them overallScore, feedback, scores, keyPoints and
    the rest of timeManagement, is the one of the parsed remote JSON. *)
Theorem analyzeAnswer_success_overlay
    (request : AnalysisRequest.t) (v : jsvalue) :
  result (analyzeAnswer request) = Returned v ->
  exists (response : Response.t) (body : jsstring) (data : jsvalue)
         (s : jsstring) (analysisResult : jsvalue),
    World.fetch w (endpoint w) (requestBody generateAnalysisPrompt w request)
    = Some response
    /\ Response.text response = Some body
    /\ JSON_parse body = Some data
    /\ result (extractText data) = Returned (JStr s)
    /\ JSON_parse (stripCodeFence s) = Some analysisResult
    /\ getOwn v (lit "transcript") = JStr (AnalysisRequest.transcript request)
    /\ getOwn (getOwn v (lit "timeManagement")) (lit "duration")
       = JNum (AnalysisRequest.audioDuration request)
    /\ getOwn v (lit "processingTime") = JNum (elapsed w)
    /\ (forall k,
          k <> lit "transcript" -> k <> lit "timeManagement" ->
          k <> lit "processingTime" ->
          lookup k (ownProps v) = lookup k (ownProps analysisResult))
    /\ (forall k,
          k <> lit "duration" ->
          lookup k (ownProps (getOwn v (lit "timeManagement")))
          = lookup k (ownProps (getOwn analysisResult (lit "timeManagement"))))
    /\ Forall (fun k => getOwn v k = getOwn analysisResult k)
         [lit "overallScore"; lit "feedback"; lit "scores"; lit "keyPoints"]
    /\ Forall (fun k =>
                 getOwn (getOwn v (lit "timeManagement")) k
                 = getOwn (getOwn analysisResult (lit "timeManagement")) k)
         [lit "efficiency"; lit "pacing"].
Proof.
  intros H.
  destruct (analyzeAnswer_returned _ H)
    as (response & body & data & s & analysisResult
        & Hfetch & Hbody & Hdata & Htext & Hres & Hv).
  destruct (overlay_fields _ _ _ Hv) as (Ht & Hd & Hp & Hrest & Htm).
  exists response, body, data, s, analysisResult.
  repeat (split; [solve [reflexivity | assumption]|]).
  split.
  - repeat (apply Forall_cons;
            [rewrite !getOwn_lookup by neq_lit; rewrite Hrest by neq_lit;
             reflexivity|]).
    apply Forall_nil.
  - repeat (apply Forall_cons;
            [rewrite (getOwn_lookup (getOwn v (lit "timeManagement"))),
               (getOwn_lookup (getOwn analysisResult (lit "timeManagement")))
               by neq_lit;
             rewrite Htm by neq_lit; reflexivity|]).
    apply Forall_nil.
Qed.

End OverlayFacts.

Lemma analyzeAnswer_success_overlay_witness :
  exists v,
    Sample.analyze Sample.fullAnswer Sample.hello = Returned v
    /\ getOwn v (lit "transcript") = JStr (lit "hello")
    /\ getOwn (getOwn v (lit "timeManagement")) (lit "duration") = JNum 12%num
    /\ getOwn v (lit "processingTime") = JNum 250%num
    /\ getOwn v (lit "overallScore") = JNum 80%num
    /\ getOwn (getOwn v (lit "timeManagement")) (lit "efficiency")
       = JStr (lit "good").
Proof.
  unfold Sample.analyze. eexists. split; [reflexivity|].
  destruct (analyzeAnswer_success_overlay Sample.parse Sample.prompt
              Sample.fullAnswer Sample.hello eq_refl)
    as (response & body & data & s & a & _ & _ & _ & _ & _ & Ht & Hd & Hp & _).
  split; [exact Ht|]. split; [exact Hd|]. split; [exact Hp|].
  split; reflexivity.
Defined.

(** ** The orchestrator *)

Section OrchestratorFacts.

Import GeminiAnalysisService.
Import StaticAnalysisService.

Variable JSON_parse : jsstring -> option jsvalue.
Variable generateAnalysisPrompt :
  InterviewQuestion.t -> jsstring -> number -> number -> jsstring.
Variable w : World.t.

Local Abbreviation remote :=
  (GeminiAnalysisService.analyzeAnswer JSON_parse generateAnalysisPrompt w).
Local Abbreviation processAudioResponse :=
  (processAudioResponse JSON_parse generateAnalysisPrompt w).

(** One run of the orchestrator, outcome and calls. *)
Lemma processAudioResponse_run (request : AnalysisRequest.t) :
  processAudioResponse request []
  = if 0 <? List.length (trim (AnalysisRequest.transcript request))
    then match result (remote request) with
         | Returned v =>
             (Returned v,
              eagerCalls request
              ++ [Call_gemini_analyzeAnswer; Call_fetch (endpoint w)])
         | Thrown _ =>
             (Returned (fallbackReport request),
              eagerCalls request
              ++ [Call_gemini_analyzeAnswer; Call_fetch (endpoint w)]
              ++ fallbackCalls request)
         end
    else (Returned (fallbackReport request),
          eagerCalls request ++ fallbackCalls request).
Proof.
  unfold GeminiAnalysisService.processAudioResponse, fallbackReport,
    fallbackCalls, eagerCalls, eagerMetrics.
  unfold call_analyzeAudioMetrics, call_analyzeAnswer,
    call_static_analyzeAnswer, call_generateStaticAnalysis.
  destruct (0 <? List.length (trim (AnalysisRequest.transcript request))).
  - destruct (AnalysisRequest.audioBlob request) as [b|],
             (AnalysisRequest.audioLevelData request) as [l|];
      unfold Eff.bind, tryCatch, emit, ret; simpl;
      rewrite (uniform_analyzeAnswer JSON_parse generateAnalysisPrompt w request);
      rewrite analyzeAnswer_calls;
      destruct (result (remote request)); reflexivity.
  - destruct (AnalysisRequest.audioBlob request) as [b|],
             (AnalysisRequest.audioLevelData request) as [l|];
      reflexivity.
Qed.

(** The legacy method of the static service, as the orchestrator calls it. *)
Lemma call_static_analyzeAnswer_result (request : AnalysisRequest.t) :
  result (call_static_analyzeAnswer request)
  = Returned (Report.to_js (StaticAnalysisService.analyzeAnswer request)).
Proof. reflexivity. Qed.

(** A transcript that trims to nothing has no word, so the metrics of the
    transcript alone report no voice. *)
Lemma blank_transcript_no_voice (request : AnalysisRequest.t) :
  trim (AnalysisRequest.transcript request) = [] ->
  AudioMetrics.hasVoice (transcriptOnlyMetrics request) = false.
Proof.
  intros Hblank. unfold transcriptOnlyMetrics. cbn [AudioMetrics.hasVoice].
  rewrite of_nat_positive, <- trim_nonEmpty_countWords, Hblank. reflexivity.
Qed.

Lemma isStringArray_strings (l : list jsstring) :
  isStringArray (Report.strings l) = true.
Proof. unfold Report.strings. simpl. induction l; simpl; auto. Qed.

(** A report of the typed interface has every field populated. *)
Lemma populated_to_js (r : AnswerAnalysis.t) :
  Report.populated (Report.to_js r) = true.
Proof.
  destruct r as [score transcript [st we su de] [c1 c2 c3 c4 c5] [co mi]
                   [du ef pa] pt].
  unfold Report.populated, Report.to_js. cbv zeta.
  cbn [AnswerAnalysis.overallScore AnswerAnalysis.transcript
       AnswerAnalysis.feedback AnswerAnalysis.scores AnswerAnalysis.keyPoints
       AnswerAnalysis.timeManagement AnswerAnalysis.processingTime
       Feedback.strengths Feedback.weaknesses Feedback.suggestions
       Feedback.detailedFeedback Scores.clarity Scores.relevance
       Scores.structure Scores.completeness Scores.confidence
       KeyPoints.covered KeyPoints.missed TimeManagement.duration
       TimeManagement.efficiency TimeManagement.pacing].
  pose proof (isStringArray_strings st) as H1.
  pose proof (isStringArray_strings we) as H2.
  pose proof (isStringArray_strings su) as H3.
  pose proof (isStringArray_strings co) as H4.
  pose proof (isStringArray_strings mi) as H5.
  revert H1 H2 H3 H4 H5.
  generalize (Report.strings st), (Report.strings we), (Report.strings su),
    (Report.strings co), (Report.strings mi).
  intros a1 a2 a3 a4 a5 H1 H2 H3 H4 H5.
  repeat match goal with
         | |- context [getOwn (JObj ?ps) (lit ?k)] =>
             let x := eval vm_compute in (lookup (lit k) ps) in
             change (getOwn (JObj ps) (lit k))
               with (match x with Some y => y | None => JUndefined end);
             cbv beta iota
         end.
  rewrite H1, H2, H3, H4, H5.
  destruct ef; reflexivity.
Qed.

(** C1, as the code has it. The orchestrator never throws: for every
    request it returns a report, which is either the one the remote client
    returned (then the transcript is not blank, and transcript,
    timeManagement.duration and processingTime are populated) or one the
    heuristic scorer produced, with every field populated. *)
Theorem processAudioResponse_total (request : AnalysisRequest.t) :
  exists v,
    result (processAudioResponse request) = Returned v
    /\ ((trim (AnalysisRequest.transcript request) <> []
         /\ result (remote request) = Returned v
         /\ isString (getOwn v (lit "transcript")) = true
         /\ isNumber (getOwn (getOwn v (lit "timeManagement")) (lit "duration"))
            = true
         /\ isNumber (getOwn v (lit "processingTime")) = true)
        \/ (exists metrics,
              v = Report.to_js (generateStaticAnalysis metrics)
              /\ Report.populated v = true)).
Proof.
  unfold result at 1. rewrite processAudioResponse_run.
  destruct (0 <? List.length (trim (AnalysisRequest.transcript request)))
    eqn:Htrim.
  - destruct (result (remote request)) as [v|e] eqn:Hremote.
    + exists v. split; [reflexivity|]. left.
      split; [intros E; rewrite E in Htrim; discriminate|].
      split; [reflexivity|].
      destruct (analyzeAnswer_returned _ _ _ _ Hremote)
        as (_ & _ & _ & _ & a & _ & _ & _ & _ & _ & Hv).
      destruct (overlay_fields _ _ _ Hv) as (Ht & Hd & Hp & _).
      now rewrite Ht, Hd, Hp.
    + eexists. split; [reflexivity|]. right. eexists.
      split; [reflexivity|]. apply populated_to_js.
  - eexists. split; [reflexivity|]. right. eexists.
    split; [reflexivity|]. apply populated_to_js.
Qed.

(** C7, as the code has it. When the trimmed transcript is not empty, the
    orchestrator calls the remote client before any call of the static
    service's scorer, and when the remote client succeeds its report is
    returned and the scorer is not called at all. *)
Theorem processAudioResponse_remote_first (request : AnalysisRequest.t) :
  trim (AnalysisRequest.transcript request) <> [] ->
  (exists before after,
     calls (processAudioResponse request)
     = before ++ Call_gemini_analyzeAnswer :: after
     /\ ~ In Call_generateStaticAnalysis before
     /\ ~ In Call_static_analyzeAnswer before)
  /\ (forall v,
        result (remote request) = Returned v ->
        result (processAudioResponse request) = Returned v
        /\ ~ In Call_generateStaticAnalysis (calls (processAudioResponse request))
        /\ ~ In Call_static_analyzeAnswer (calls (processAudioResponse request))).
Proof.
  intros Htrim. unfold result at 2, calls.
  rewrite processAudioResponse_run.
  destruct (0 <? List.length (trim (AnalysisRequest.transcript request)))
    eqn:Hlen.
  2:{ destruct (trim (AnalysisRequest.transcript request));
        [now elim Htrim | discriminate]. }
  assert (Heager : ~ In Call_generateStaticAnalysis (eagerCalls request)
                   /\ ~ In Call_static_analyzeAnswer (eagerCalls request)).
  { unfold eagerCalls. destruct (eagerMetrics request); simpl;
      (split; intros H; repeat destruct H as [H|H]; congruence || auto). }
  split.
  - exists (eagerCalls request).
    destruct (result (remote request)); eexists; simpl; (split; [reflexivity|]);
      exact Heager.
  - intros v Hv. rewrite Hv. simpl. split; [reflexivity|].
    destruct Heager as [H1 H2].
    split; intros H; apply in_app_or in H; destruct H as [H|H]; auto;
      simpl in H; repeat destruct H as [H|H]; congruence || auto.
Qed.

(** C9. The metrics extractor is called exactly when the request carries
    both the audio blob and the level statistics. When one of them is
    missing and the fallback is taken (the trimmed transcript is empty or the
    remote client failed), the scorer runs on the metrics of the transcript
    alone: voice is present exactly when the word count is positive, and the
    peak and mean levels are 0. *)
Theorem processAudioResponse_transcript_only (request : AnalysisRequest.t) :
  (In Call_analyzeAudioMetrics (calls (processAudioResponse request))
   <-> (AnalysisRequest.audioBlob request <> None
        /\ AnalysisRequest.audioLevelData request <> None))
  /\ (AnalysisRequest.audioBlob request = None
      \/ AnalysisRequest.audioLevelData request = None ->
      trim (AnalysisRequest.transcript request) = []
      \/ (exists e, result (remote request) = Thrown e) ->
      let wordCount := countWords (AnalysisRequest.transcript request) in
      result (processAudioResponse request)
      = Returned
          (Report.to_js
             (generateStaticAnalysis
                {| AudioMetrics.duration := AnalysisRequest.audioDuration request;
                   AudioMetrics.hasVoice := (0 <? wordCount);
                   AudioMetrics.transcript := AnalysisRequest.transcript request;
                   AudioMetrics.wordCount := Num.of_nat wordCount;
                   AudioMetrics.avgRms := 0%num;
                   AudioMetrics.maxRms := 0%num |}))
      /\ In Call_generateStaticAnalysis (calls (processAudioResponse request))).
Proof.
  unfold result at 2, calls. rewrite processAudioResponse_run.
  assert (Hnone : AnalysisRequest.audioBlob request = None
                  \/ AnalysisRequest.audioLevelData request = None ->
                  eagerMetrics request = None).
  { unfold eagerMetrics. intros [-> | ->]; [reflexivity|].
    destruct (AnalysisRequest.audioBlob request); reflexivity. }
  split.
  - assert (Hrest :
              ~ In Call_analyzeAudioMetrics
                  ([Call_gemini_analyzeAnswer; Call_fetch (endpoint w)]
                   ++ fallbackCalls request)).
    { intros H. unfold fallbackCalls in H.
      destruct (eagerMetrics request); simpl in H;
        repeat destruct H as [H|H]; congruence || auto. }
    assert (Hfb : ~ In Call_analyzeAudioMetrics (fallbackCalls request)).
    { intros H. unfold fallbackCalls in H.
      destruct (eagerMetrics request); simpl in H;
        repeat destruct H as [H|H]; congruence || auto. }
    assert (Hcalls : forall rest,
              ~ In Call_analyzeAudioMetrics rest ->
              (In Call_analyzeAudioMetrics (eagerCalls request ++ rest)
               <-> AnalysisRequest.audioBlob request <> None
                   /\ AnalysisRequest.audioLevelData request <> None)).
    { intros rest Hr. unfold eagerCalls, eagerMetrics.
      destruct (AnalysisRequest.audioBlob request),
               (AnalysisRequest.audioLevelData request); simpl;
        split; try (intros [? ?]; congruence); try tauto;
        intros _; split; discriminate. }
    destruct (0 <? List.length (trim (AnalysisRequest.transcript request))).
    + destruct (result (remote request)); simpl snd.
      * apply Hcalls. simpl. intros [H|[H|[]]]; discriminate.
      * apply Hcalls. apply Hrest.
    + apply Hcalls, Hfb.
  - intros Hmiss Hfall. cbv zeta.
    assert (Hreport :
      fallbackReport request
      = Report.to_js
          (generateStaticAnalysis
             {| AudioMetrics.duration := AnalysisRequest.audioDuration request;
                AudioMetrics.hasVoice :=
                  (0 <? countWords (AnalysisRequest.transcript request));
                AudioMetrics.transcript := AnalysisRequest.transcript request;
                AudioMetrics.wordCount :=
                  Num.of_nat (countWords (AnalysisRequest.transcript request));
                AudioMetrics.avgRms := 0%num;
                AudioMetrics.maxRms := 0%num |})).
    { unfold fallbackReport. rewrite (Hnone Hmiss).
      unfold transcriptOnlyMetrics. now rewrite of_nat_positive. }
    assert (Hin : In Call_generateStaticAnalysis (fallbackCalls request)).
    { unfold fallbackCalls. rewrite (Hnone Hmiss). simpl. auto. }
    destruct (0 <? List.length (trim (AnalysisRequest.transcript request)))
      eqn:Hlen.
    + destruct Hfall as [Hempty | [e He]].
      * rewrite Hempty in Hlen. discriminate.
      * rewrite He. cbn [fst snd]. rewrite Hreport.
        split; [reflexivity|].
        apply in_or_app. right. apply in_or_app. now right.
    + cbn [fst snd]. rewrite Hreport.
      split; [reflexivity | apply in_or_app; now right].
Qed.

End OrchestratorFacts.

(** C1, counterexample. The remote answer [{}] comes back as a report
    without scores: on the remote path the returned report does not have
    every field populated. *)
Lemma processAudioResponse_partial_report :
  result (Sample.orchestrate Sample.bareAnswer Sample.hello)
  = Returned Sample.bareReport
  /\ Report.populated Sample.bareReport = false
  /\ getOwn Sample.bareReport (lit "overallScore") = JUndefined
  /\ getOwn Sample.bareReport (lit "scores") = JUndefined.
Proof. repeat split. Qed.

(** C7, counterexample. A transcript of one space is not empty, and the
    remote client would succeed on it, yet the orchestrator never calls the
    remote client and goes to the static service at once. *)
Lemma blank_transcript_skips_remote :
  AnalysisRequest.transcript Sample.blank <> []
  /\ (exists v, Sample.analyze Sample.fullAnswer Sample.blank = Returned v)
  /\ calls (Sample.orchestrate Sample.fullAnswer Sample.blank)
     = [Call_static_analyzeAnswer; Call_generateStaticAnalysis]
  /\ ~ In Call_gemini_analyzeAnswer
         (calls (Sample.orchestrate Sample.fullAnswer Sample.blank)).
Proof.
  split; [discriminate|]. split; [eexists; reflexivity|].
  split; [reflexivity|].
  intros H. vm_compute in H. repeat destruct H as [H|H]; discriminate || auto.
Qed.

Lemma processAudioResponse_remote_first_witness :
  trim (AnalysisRequest.transcript Sample.hello) <> []
  /\ result (Sample.orchestrate Sample.fullAnswer Sample.hello)
     = Sample.analyze Sample.fullAnswer Sample.hello
  /\ ~ In Call_generateStaticAnalysis
         (calls (Sample.orchestrate Sample.fullAnswer Sample.hello)).
Proof.
  assert (H : trim (AnalysisRequest.transcript Sample.hello) <> [])
    by discriminate.
  split; [exact H|].
  destruct (proj2 (processAudioResponse_remote_first Sample.parse
                     Sample.prompt Sample.fullAnswer Sample.hello H)
              _ eq_refl) as (Hres & Hno & _).
  split; [exact Hres | exact Hno].
Defined.

Lemma processAudioResponse_transcript_only_witness :
  result (Sample.orchestrate Sample.serverError Sample.hello)
  = Returned
      (Report.to_js
         (StaticAnalysisService.generateStaticAnalysis
            {| AudioMetrics.duration := 12%num;
               AudioMetrics.hasVoice := true;
               AudioMetrics.transcript := lit "hello";
               AudioMetrics.wordCount := 1%num;
               AudioMetrics.avgRms := 0%num;
               AudioMetrics.maxRms := 0%num |})).
Proof.
  exact (proj1 (proj2 (processAudioResponse_transcript_only Sample.parse
                         Sample.prompt Sample.serverError Sample.hello)
                  (or_introl eq_refl)
                  (or_intror (ex_intro _ _ eq_refl)))).
Defined.

(** ** The scenarios of the specification *)

(** Five seconds, no transcript, 500 bytes: no voice, score 0, and the
    weakness "No voice detected". *)
Example scenario_no_voice :
  let m := StaticAnalysisService.analyzeAudioMetrics
             {| Blob.size := 500%num |} 5%num [] Sample.silence in
  let r := StaticAnalysisService.generateStaticAnalysis m in
  AudioMetrics.hasVoice m = false
  /\ AnswerAnalysis.overallScore r = 0%num
  /\ In (lit "No voice detected")
        (Feedback.weaknesses (AnswerAnalysis.feedback r)).
Proof. cbv zeta. repeat split. now left. Qed.

(** Sixty seconds, 120 words, the remote call fails with status 500: the
    static report, score 50, and the weakness that names the fallback. *)
Example scenario_remote_down :
  let words := List.concat (List.repeat (lit "word ") 120) in
  let request := Sample.request words 60%num in
  countWords words = 120
  /\ Sample.analyze Sample.serverError request
     = Thrown (Error_ (lit "Gemini API error (500): Internal Server Error"))
  /\ calls (Sample.orchestrate Sample.serverError request)
     = [Call_gemini_analyzeAnswer; Call_fetch (lit "/api/gemini-proxy");
        Call_static_analyzeAnswer; Call_generateStaticAnalysis]
  /\ exists v,
       result (Sample.orchestrate Sample.serverError request) = Returned v
       /\ getOwn v (lit "overallScore") = JNum 50%num
       /\ getOwn (getOwn v (lit "feedback")) (lit "weaknesses")
          = JArr [JStr (lit "AI analysis temporarily unavailable")].
Proof.
  cbv zeta. split; [reflexivity|]. split; [reflexivity|].
  split; [reflexivity|]. eexists. split; [reflexivity|]. split; reflexivity.
Qed.

(** The fenced answer of the full relay is unwrapped and overlaid. *)
Example scenario_fenced_answer :
  GeminiAnalysisService.stripCodeFence (fenced Sample.answerText)
  = Sample.answerText
  /\ exists v,
       Sample.analyze Sample.fullAnswer Sample.hello = Returned v
       /\ getOwn v (lit "transcript") = JStr (lit "hello")
       /\ getOwn v (lit "overallScore") = JNum 80%num.
Proof.
  split; [reflexivity|]. eexists. split; [reflexivity|]. split; reflexivity.
Qed.

(** * Further properties of the code *)

(** ** Words and white space *)

Section WordFacts.

Lemma nonEmptyCount_cons (w : jsstring) (l : list jsstring) :
  nonEmptyCount (w :: l)
  = (if 0 <? List.length w then 1 else 0) + nonEmptyCount l.
Proof.
  unfold nonEmptyCount. simpl. destruct (0 <? List.length w); reflexivity.
Qed.

Lemma nonEmptyCount_after_separator (s : jsstring) :
  nonEmptyCount (split_go true [] s) = countWords s.
Proof.
  unfold countWords, split_spaces. fold (nonEmptyCount (split_go false [] s)).
  destruct s as [|c s]; [reflexivity|]. simpl.
  destruct (is_space c); [|reflexivity].
  now rewrite nonEmptyCount_cons.
Qed.

Lemma nonEmptyCount_split_go_app (a : jsstring) :
  forall (in_sep : bool) (cur : jsstring) (c : unit16) (rest : jsstring),
    (in_sep = true -> cur = []) ->
    is_space c = true ->
    nonEmptyCount (split_go in_sep cur (a ++ c :: rest))
    = nonEmptyCount (split_go in_sep cur a)
      + nonEmptyCount (split_go true [] rest).
Proof.
  induction a as [|x a IH]; intros in_sep cur c rest Hinv Hc;
    cbn [app split_go].
  - rewrite Hc. destruct in_sep.
    + rewrite (Hinv eq_refl). reflexivity.
    + rewrite !nonEmptyCount_cons. unfold nonEmptyCount at 2. simpl. lia.
  - destruct (is_space x).
    + destruct in_sep.
      * now apply IH.
      * rewrite !nonEmptyCount_cons, (IH true [] c rest) by auto. lia.
    + apply IH; [discriminate | exact Hc].
Qed.

Lemma countWords_app_space (a b : jsstring) (c : unit16) :
  is_space c = true ->
  countWords (a ++ c :: b) = countWords a + countWords b.
Proof.
  intros Hc. unfold countWords at 1 2, split_spaces.
  fold (nonEmptyCount (split_go false [] (a ++ c :: b))).
  fold (nonEmptyCount (split_go false [] a)).
  rewrite nonEmptyCount_split_go_app by (discriminate || assumption).
  now rewrite nonEmptyCount_after_separator.
Qed.

(** X1. The word count adds up over white space: the words of [a], a
    non-empty run of white space and [b] are the words of [a] and the words
    of [b], so that no word is made or lost at a separator of any length. *)
Theorem countWords_separator (a ws b : jsstring) :
  ws <> [] -> forallb is_space ws = true ->
  countWords (a ++ ws ++ b) = countWords a + countWords b.
Proof.
  intros Hne Hws. revert a.
  induction ws as [|c ws IH]; [now elim Hne|]. intros a.
  cbn [forallb] in Hws. apply andb_prop in Hws. destruct Hws as [Hc Hws].
  cbn [app]. rewrite (@countWords_app_space a (ws ++ b) c Hc).
  destruct ws as [|c' ws'].
  - reflexivity.
  - assert (Hne' : c' :: ws' <> []) by discriminate.
    change ((c' :: ws') ++ b) with ([] ++ (c' :: ws') ++ b).
    rewrite (IH Hne' Hws []). reflexivity.
Qed.

Lemma countWords_separator_witness :
  countWords (lit "one two" ++ [10; 32]%N ++ lit "three") = 2 + 1.
Proof.
  refine (@countWords_separator (lit "one two") [10; 32]%N (lit "three")
            _ eq_refl).
  discriminate.
Defined.

Lemma countWords_leading_space (c : unit16) (s : jsstring) :
  is_space c = true -> countWords (c :: s) = countWords s.
Proof. intros Hc. exact (@countWords_app_space [] s c Hc). Qed.

Lemma countWords_trailing_space (c : unit16) (s : jsstring) :
  is_space c = true -> countWords (s ++ [c]) = countWords s.
Proof.
  intros Hc. rewrite (@countWords_app_space s [] c Hc).
  change (countWords []) with 0. lia.
Qed.

Lemma trimEnd_snoc (s : jsstring) (c : unit16) :
  trimEnd (s ++ [c]) = if is_space c then trimEnd s else s ++ [c].
Proof.
  unfold trimEnd. rewrite rev_app_distr. simpl.
  destruct (is_space c); [reflexivity|].
  simpl. now rewrite rev_involutive.
Qed.

Lemma countWords_trimStart (s : jsstring) :
  countWords (trimStart s) = countWords s.
Proof.
  induction s as [|c s IH]; [reflexivity|]. simpl.
  destruct (is_space c) eqn:Hc; [|reflexivity].
  now rewrite IH, countWords_leading_space.
Qed.

Lemma countWords_trimEnd (s : jsstring) :
  countWords (trimEnd s) = countWords s.
Proof.
  induction s as [|c s IH] using rev_ind; [reflexivity|].
  rewrite trimEnd_snoc. destruct (is_space c) eqn:Hc; [|reflexivity].
  now rewrite IH, countWords_trailing_space.
Qed.

(** X2. Trimming a transcript does not change its word count, and a
    transcript trims to the empty string exactly when it has no word: the
    test of the orchestrator and the voice test of the static service
    agree. *)
Theorem countWords_trim (s : jsstring) :
  countWords (trim s) = countWords s
  /\ (trim s = [] <-> countWords s = 0).
Proof.
  split.
  - unfold trim. now rewrite countWords_trimEnd, countWords_trimStart.
  - pose proof (trim_nonEmpty_countWords s) as H.
    destruct (trim s) as [|c t]; simpl in H.
    + split; [intros _|reflexivity].
      destruct (countWords s); [reflexivity | discriminate].
    + split; [discriminate|]. intros E. rewrite E in H. discriminate.
Qed.

Lemma twice_nonEmptyCount_split_go (s : jsstring) :
  forall (in_sep : bool) (cur : jsstring),
    (in_sep = true -> cur = []) ->
    2 * nonEmptyCount (split_go in_sep cur s)
    <= List.length s + (if 0 <? List.length cur then 2 else 1).
Proof.
  induction s as [|c s IH]; intros in_sep cur Hinv; simpl split_go.
  - rewrite nonEmptyCount_cons. unfold nonEmptyCount. simpl.
    destruct (0 <? List.length cur); lia.
  - simpl List.length. destruct (is_space c).
    + destruct in_sep.
      * specialize (IH true [] (fun _ => eq_refl)). simpl in IH.
        destruct (0 <? List.length cur); lia.
      * rewrite nonEmptyCount_cons.
        specialize (IH true [] (fun _ => eq_refl)). simpl in IH.
        destruct (0 <? List.length cur); lia.
    + assert (Hd : forall b, b = false -> b = true -> cur ++ [c] = [])
        by (intros b -> ; discriminate).
      specialize (IH false (cur ++ [c]) (Hd false eq_refl)).
      rewrite length_app in IH. simpl in IH.
      replace (0 <? List.length cur + 1) with true in IH
        by (symmetry; apply Nat.ltb_lt; lia).
      destruct (0 <? List.length cur); lia.
Qed.

(** X3. Words need separators: a transcript of [n] code units has at most
    [(n + 1) / 2] words. *)
Theorem countWords_bound (s : jsstring) :
  2 * countWords s <= List.length s + 1.
Proof.
  unfold countWords, split_spaces.
  fold (nonEmptyCount (split_go false [] s)).
  exact (@twice_nonEmptyCount_split_go s false [] (fun H => eq_refl)).
Qed.

End WordFacts.

(** ** The static service, further *)

Section StaticMore.

Import StaticAnalysisService.
Local Open Scope num_scope.

Lemma le_of_Z (a b : Z) : Num.le (Num.of_Z a) (Num.of_Z b) = (a <=? b)%Z.
Proof.
  unfold Num.le, Num.of_Z, Qle_bool, inject_Z. cbn [Qnum Qden].
  now rewrite !Z.mul_1_r.
Qed.

Lemma lt_of_Z (a b : Z) : Num.lt (Num.of_Z a) (Num.of_Z b) = (a <? b)%Z.
Proof.
  unfold Num.lt, Num.of_Z, Num.Qlt_bool, Qle_bool, inject_Z. cbn [Qnum Qden].
  rewrite !Z.mul_1_r. symmetry. apply Z.ltb_antisym.
Qed.

(** X4. Without a positive duration (zero, negative or NaN) the signal
    heuristic is off and voice presence is decided by the word count alone;
    and a recording without words counts as voice only with a positive
    duration, at least 2000 bytes, and a high enough peak or, over a positive
    number of frames, a high enough mean. *)
Theorem analyzeAudioMetrics_signal_needs
    (audioBlob : Blob.t) (duration : number) (transcript : jsstring)
    (audioLevelData : AudioLevelData.t) :
  let m := analyzeAudioMetrics audioBlob duration transcript audioLevelData in
  (Num.gt duration 0 = false ->
   AudioMetrics.hasVoice m = (0 <? countWords transcript)%nat)
  /\ (countWords transcript = 0%nat ->
      AudioMetrics.hasVoice m = true ->
      Num.gt duration 0 = true
      /\ Num.ge (Blob.size audioBlob) 2000 = true
      /\ (Num.ge (AudioLevelData.maxRms audioLevelData) peak_threshold = true
          \/ (Num.gt (AudioLevelData.frames audioLevelData) 0 = true
              /\ Num.ge (Num.div (AudioLevelData.sumRms audioLevelData)
                                 (AudioLevelData.frames audioLevelData))
                        mean_threshold = true))).
Proof.
  cbv zeta. unfold analyzeAudioMetrics. cbv zeta.
  cbn [AudioMetrics.hasVoice]. rewrite of_nat_positive. split.
  - intros ->. reflexivity.
  - intros ->. rewrite orb_false_r. intros H.
    apply andb_true_iff in H. destruct H as [H Hlevel].
    apply andb_true_iff in H. destruct H as [H _].
    apply andb_true_iff in H. destruct H as [Hd Hs].
    split; [exact Hd|]. split; [exact Hs|].
    apply orb_true_iff in Hlevel. destruct Hlevel as [Hp|Hm]; [now left|].
    right. destruct (Num.gt (AudioLevelData.frames audioLevelData) 0).
    + now split.
    + discriminate Hm.
Qed.

Lemma analyzeAudioMetrics_signal_needs_witness :
  Num.gt NaN 0 = false
  /\ AudioMetrics.hasVoice
       (analyzeAudioMetrics {| Blob.size := 50000 |} NaN []
          {| AudioLevelData.maxRms := 1; AudioLevelData.sumRms := 10;
             AudioLevelData.frames := 10 |}) = false.
Proof.
  split; [reflexivity|].
  exact (proj1 (analyzeAudioMetrics_signal_needs {| Blob.size := 50000 |} NaN []
                  {| AudioLevelData.maxRms := 1; AudioLevelData.sumRms := 10;
                     AudioLevelData.frames := 10 |}) eq_refl).
Defined.

(** X5. A recording of positive finite duration with at least 2000 bytes,
    at least 300 bytes per second and a peak level of at least 0.015 counts
    as voice even when the transcript is empty. *)
Theorem analyzeAudioMetrics_signal_suffices
    (size d : Q) (transcript : jsstring) (audioLevelData : AudioLevelData.t) :
  (0 < d)%Q -> (2000 <= size)%Q -> (300 * d <= size)%Q ->
  Num.ge (AudioLevelData.maxRms audioLevelData) peak_threshold = true ->
  AudioMetrics.hasVoice
    (analyzeAudioMetrics {| Blob.size := Fin size |} (Fin d) transcript
       audioLevelData) = true.
Proof.
  intros Hd Hsize Hrate Hpeak. unfold analyzeAudioMetrics. cbv zeta.
  cbn [AudioMetrics.hasVoice Blob.size]. rewrite Hpeak.
  assert (Hgt : Num.gt (Fin d) 0 = true).
  { unfold Num.gt, Num.lt, Num.Qlt_bool. apply negb_true_iff.
    destruct (Qle_bool d _) eqn:E; [|reflexivity].
    apply Qle_bool_iff in E. exfalso. apply (Qlt_not_le _ _ Hd). exact E. }
  rewrite Hgt. cbv iota.
  assert (Hne : Qeq_bool d 0 = false).
  { destruct (Qeq_bool d 0) eqn:E; [|reflexivity].
    apply Qeq_bool_iff in E. rewrite E in Hd. now apply Qlt_irrefl in Hd. }
  unfold Num.div. rewrite Hne. unfold Num.ge, Num.le.
  match goal with
  | |- context [Qle_bool ?a size] =>
      replace (Qle_bool a size) with true
        by (symmetry; apply Qle_bool_iff; exact Hsize)
  end.
  match goal with
  | |- context [Qle_bool ?a (size / d)] =>
      replace (Qle_bool a (size / d)) with true
        by (symmetry; apply Qle_bool_iff; apply Qle_shift_div_l;
            [exact Hd | exact Hrate])
  end.
  reflexivity.
Qed.

Lemma analyzeAudioMetrics_signal_suffices_witness :
  AudioMetrics.hasVoice
    (analyzeAudioMetrics {| Blob.size := 48000 |} 12 []
       {| AudioLevelData.maxRms := Fin (2 # 100); AudioLevelData.sumRms := 0;
          AudioLevelData.frames := 0 |}) = true.
Proof.
  apply (@analyzeAudioMetrics_signal_suffices 48000%Q 12%Q []
           {| AudioLevelData.maxRms := Fin (2 # 100); AudioLevelData.sumRms := 0;
              AudioLevelData.frames := 0 |});
    [reflexivity | discriminate | discriminate | reflexivity].
Defined.

(** X6. The transcript of a static report is never empty: a non-empty
    input transcript is echoed unchanged, and an empty one is replaced by a
    placeholder that tells voice without transcript from no voice. *)
Theorem generateStaticAnalysis_transcript (metrics : AudioMetrics.t) :
  let r := generateStaticAnalysis metrics in
  AnswerAnalysis.transcript r <> []
  /\ (AudioMetrics.transcript metrics <> [] ->
      AnswerAnalysis.transcript r = AudioMetrics.transcript metrics)
  /\ (AudioMetrics.transcript metrics = [] ->
      AnswerAnalysis.transcript r
      = if AudioMetrics.hasVoice metrics
        then lit "[Voice detected but transcript unavailable]"
        else lit "[No voice detected]").
Proof.
  destruct metrics as [d v t wc avg mx]. cbv zeta.
  unfold generateStaticAnalysis.
  cbn [AnswerAnalysis.transcript AudioMetrics.transcript AudioMetrics.hasVoice
       AudioMetrics.duration].
  destruct t as [|c t]; simpl or_else.
  - split; [destruct v; discriminate|]. split; [congruence | reflexivity].
  - split; [discriminate|]. split; [reflexivity | discriminate].
Qed.

Lemma generateStaticAnalysis_transcript_witness :
  AnswerAnalysis.transcript
    (generateStaticAnalysis (Sample.metrics_of 5 true))
  = lit "[Voice detected but transcript unavailable]".
Proof.
  exact (proj2 (proj2 (generateStaticAnalysis_transcript
                         (Sample.metrics_of 5 true))) eq_refl).
Defined.

(** X7. A static report names exactly one weakness and one suggestion, and
    the weakness goes with the score: "No voice detected" with 0, "Response
    is very short" with 20, and the fallback notice "AI analysis temporarily
    unavailable" with 50. Strengths are empty exactly at score 0, and the
    key points are always empty. *)
Theorem generateStaticAnalysis_weakness (metrics : AudioMetrics.t) :
  let r := generateStaticAnalysis metrics in
  let f := AnswerAnalysis.feedback r in
  In (AnswerAnalysis.overallScore r, Feedback.weaknesses f)
     [ (0, [lit "No voice detected"]);
       (20, [lit "Response is very short"]);
       (50, [lit "AI analysis temporarily unavailable"]) ]
  /\ List.length (Feedback.suggestions f) = 1%nat
  /\ (Feedback.strengths f = [] <-> AnswerAnalysis.overallScore r = 0)
  /\ AnswerAnalysis.keyPoints r
     = {| KeyPoints.covered := []; KeyPoints.missed := [] |}.
Proof.
  destruct metrics as [d v t wc avg mx]. cbv zeta.
  unfold generateStaticAnalysis.
  cbn [AnswerAnalysis.overallScore AnswerAnalysis.feedback
       AnswerAnalysis.keyPoints Feedback.weaknesses Feedback.suggestions
       Feedback.strengths AudioMetrics.hasVoice AudioMetrics.duration
       AudioMetrics.transcript].
  destruct v; cbn [negb]; cbv iota.
  - destruct (Num.lt d 10); cbv iota.
    + split; [right; left; reflexivity|]. split; [reflexivity|].
      split; [split; discriminate | reflexivity].
    + split; [right; right; left; reflexivity|]. split; [reflexivity|].
      split; [split; discriminate | reflexivity].
  - split; [left; reflexivity|]. split; [reflexivity|].
    split; [split; reflexivity | reflexivity].
Qed.

(** The value before clamping, as an integer. *)
Lemma estimate_raw (z : Z) :
  Num.round (Num.add (Num.mul (Num.div (Num.of_Z z) 100) 80) 20)
  = Num.of_Z ((160 * z + 4100) / 200).
Proof.
  change (Num.round (Num.add (Num.mul (Num.div (Num.of_Z z) 100) 80) 20))
    with (Num.of_Z (Qfloor (inject_Z z / 100 * 80 + 20 + (1 # 2)))).
  f_equal.
  unfold Qfloor, Qdiv, Qmult, Qplus, Qinv, inject_Z. cbn [Qnum Qden].
  f_equal; lia.
Qed.

Lemma clamp_of_Z (z : Z) :
  Num.min (Num.max (Num.of_Z z) 20) 95 = Num.of_Z (Z.min (Z.max z 20) 95).
Proof.
  change 20 with (Num.of_Z 20). change 95 with (Num.of_Z 95).
  unfold Num.max at 1. cbn [Num.of_Z]. fold (Num.of_Z z). fold (Num.of_Z 20).
  rewrite lt_of_Z.
  destruct (z <? 20)%Z eqn:Hlo.
  - apply Z.ltb_lt in Hlo. rewrite Z.max_r by lia.
    rewrite Z.min_l by lia. reflexivity.
  - apply Z.ltb_ge in Hlo. rewrite Z.max_l by lia.
    unfold Num.min. cbn [Num.of_Z]. fold (Num.of_Z z). fold (Num.of_Z 95).
    rewrite lt_of_Z.
    destruct (95 <? z)%Z eqn:Hhi.
    + apply Z.ltb_lt in Hhi. rewrite Z.min_r by lia. reflexivity.
    + apply Z.ltb_ge in Hhi. rewrite Z.min_l by lia. reflexivity.
Qed.

Lemma estimatedScore_formula (transcript : jsstring) (duration : number) :
  QuickFeedback.estimatedScore (generateQuickFeedback transcript duration)
  = Num.of_Z
      (Z.min (Z.max ((160 * Z.of_nat (countWords transcript) + 4100) / 200) 20)
             95).
Proof.
  unfold generateQuickFeedback. cbv zeta.
  cbn [QuickFeedback.estimatedScore]. unfold Num.of_nat.
  now rewrite estimate_raw, clamp_of_Z.
Qed.

(** X8. The estimated score never goes down when the transcript has more
    words, whatever the durations; it is 20 without words and reaches its
    ceiling of 95 exactly from 94 words on. *)
Theorem estimatedScore_monotone
    (t1 t2 : jsstring) (d1 d2 : number) :
  let score t d :=
    QuickFeedback.estimatedScore (generateQuickFeedback t d) in
  ((countWords t1 <= countWords t2)%nat ->
   Num.le (score t1 d1) (score t2 d2) = true)
  /\ (countWords t1 = 0%nat -> score t1 d1 = 20)
  /\ (score t1 d1 = 95 <-> (94 <= countWords t1)%nat).
Proof.
  cbv beta zeta. rewrite !estimatedScore_formula.
  set (n1 := Z.of_nat (countWords t1)). set (n2 := Z.of_nat (countWords t2)).
  assert (Hmono : forall a b, (a <= b)%Z ->
            ((160 * a + 4100) / 200 <= (160 * b + 4100) / 200)%Z)
    by (intros a b Hab; apply Z.div_le_mono; lia).
  split; [|split].
  - intros Hle. rewrite le_of_Z. apply Z.leb_le.
    assert (H := Hmono n1 n2 ltac:(subst n1 n2; lia)). lia.
  - intros H0. subst n1. rewrite H0. reflexivity.
  - split.
    + intros H.
      assert (Hinj : forall a b, Num.of_Z a = Num.of_Z b -> a = b)
        by (intros a b E; unfold Num.of_Z, inject_Z in E; congruence).
      apply Hinj in H.
      destruct (le_gt_dec 94 (countWords t1)) as [|Hlt]; [assumption|exfalso].
      assert (H93 := Hmono n1 93%Z ltac:(subst n1; lia)).
      change ((160 * 93 + 4100) / 200)%Z with 94%Z in H93. lia.
    + intros H. assert (H94 := Hmono 94%Z n1 ltac:(subst n1; lia)).
      change ((160 * 94 + 4100) / 200)%Z with 95%Z in H94.
      change 95 with (Num.of_Z 95). apply f_equal. lia.
Qed.

Lemma estimatedScore_monotone_witness :
  Num.le (QuickFeedback.estimatedScore
            (generateQuickFeedback (lit "one two") 3))
         (QuickFeedback.estimatedScore
            (generateQuickFeedback (lit "one two three four") NaN)) = true.
Proof.
  apply (proj1 (estimatedScore_monotone (lit "one two")
                  (lit "one two three four") 3 NaN)).
  vm_compute. lia.
Defined.

End StaticMore.

Section QuickFeedbackFacts.

Import StaticAnalysisService.
Local Open Scope num_scope.



(** X10. The quick tips: "Aim for a longer response" is given exactly for
    a duration strictly between 0 and 30, "Add more specific examples"
    exactly for 1 to 49 words, and nothing else is ever given. *)
Theorem quickTips_membership (transcript : jsstring) (duration : number) :
  let tips :=
    QuickFeedback.quickTips (generateQuickFeedback transcript duration) in
  (In (lit "Aim for a longer response") tips
   <-> Num.gt duration 0 = true /\ Num.lt duration 30 = true)
  /\ (In (lit "Add more specific examples") tips
      <-> (0 < countWords transcript < 50)%nat)
  /\ (forall tip, In tip tips ->
        tip = lit "Aim for a longer response"
        \/ tip = lit "Add more specific examples").
Proof.
  cbv zeta. unfold generateQuickFeedback. cbv zeta.
  cbn [QuickFeedback.quickTips]. unfold getQuickTips. cbv zeta.
  rewrite of_nat_positive.
  change 50 with (Num.of_Z 50). unfold Num.of_nat. rewrite lt_of_Z.
  set (n := countWords transcript).
  assert (Hw : (0 <? n)%nat && (Z.of_nat n <? 50)%Z = true
               <-> (0 < n < 50)%nat).
  { rewrite andb_true_iff, Nat.ltb_lt, Z.ltb_lt. lia. }
  destruct (Num.gt duration 0 && Num.lt duration 30) eqn:Hd;
    destruct ((0 <? n)%nat && (Z.of_nat n <? 50)%Z) eqn:Hn;
    cbn [app]; rewrite <- Hw; rewrite <- andb_true_iff, Hd;
    (split; [|split]);
    try (split; [intros H | intros H; try discriminate H]);
    try (intros tip H);
    simpl in *; intuition (try discriminate; auto).
Qed.

(** X11. The legacy [analyzeAnswer] of the static service scores by the
    transcript alone: a transcript without a word (empty or white space
    only) gets 0 and "No voice detected"; any other gets 20 below ten
    seconds and 50 otherwise, with the transcript echoed. *)
Theorem static_analyzeAnswer_by_transcript (request : AnalysisRequest.t) :
  let r := StaticAnalysisService.analyzeAnswer request in
  (trim (AnalysisRequest.transcript request) = [] ->
   AnswerAnalysis.overallScore r = 0
   /\ Feedback.weaknesses (AnswerAnalysis.feedback r)
      = [lit "No voice detected"])
  /\ (trim (AnalysisRequest.transcript request) <> [] ->
      AnswerAnalysis.overallScore r
      = (if Num.lt (AnalysisRequest.audioDuration request) 10 then 20 else 50)
      /\ AnswerAnalysis.transcript r = AnalysisRequest.transcript request).
Proof.
  cbv zeta. unfold StaticAnalysisService.analyzeAnswer, transcriptOnlyMetrics.
  unfold generateStaticAnalysis.
  cbn [AnswerAnalysis.overallScore AnswerAnalysis.feedback
       AnswerAnalysis.transcript Feedback.weaknesses AudioMetrics.hasVoice
       AudioMetrics.duration AudioMetrics.transcript].
  rewrite of_nat_positive, <- trim_nonEmpty_countWords.
  split.
  - intros ->. split; reflexivity.
  - intros Hne.
    destruct (trim (AnalysisRequest.transcript request)) as [|c t] eqn:Ht;
      [now elim Hne|].
    cbn [List.length Nat.ltb Nat.leb negb].
    split; [reflexivity|].
    destruct (AnalysisRequest.transcript request); [discriminate Ht|].
    reflexivity.
Qed.

Lemma static_analyzeAnswer_by_transcript_witness :
  AnswerAnalysis.overallScore
    (StaticAnalysisService.analyzeAnswer Sample.blank) = 0
  /\ AnswerAnalysis.overallScore
       (StaticAnalysisService.analyzeAnswer Sample.hello) = 50.
Proof.
  split.
  - exact (proj1 (proj1 (static_analyzeAnswer_by_transcript Sample.blank)
                    eq_refl)).
  - refine (proj1 (proj2 (static_analyzeAnswer_by_transcript Sample.hello) _)).
    discriminate.
Defined.

End QuickFeedbackFacts.

(** ** The remote client, further *)

Section RemoteMore.

Import GeminiAnalysisService.

Variable JSON_parse : jsstring -> option jsvalue.
Variable generateAnalysisPrompt :
  InterviewQuestion.t -> jsstring -> number -> number -> jsstring.
Variable w : World.t.

Local Abbreviation analyzeAnswer :=
  (analyzeAnswer JSON_parse generateAnalysisPrompt w).
Local Abbreviation endpoint := (endpoint w).
Local Abbreviation requestBody := (requestBody generateAnalysisPrompt w).

Lemma truthy_not_nullish (v : jsvalue) : truthy v = true -> nullish v = false.
Proof. destruct v; simpl; congruence. Qed.

Lemma optProp_not_nullish (v : jsvalue) (k : jsstring) :
  nullish (optProp v k) = false ->
  nullish v = false /\ optProp v k = getOwn v k.
Proof.
  unfold optProp. destruct (nullish v); simpl; [discriminate | auto].
Qed.

(** When the optional chain ends in a truthy value, the plain chain reads
    the same value without throwing. *)
Lemma candidate_chain (c : jsvalue) :
  truthy c = true ->
  truthy (candidateText c) = true ->
  exists c0 content parts p0,
    getProp c (index_key 0) = Some c0
    /\ getProp c0 (lit "content") = Some content
    /\ getProp content (lit "parts") = Some parts
    /\ getProp parts (index_key 0) = Some p0
    /\ getProp p0 (lit "text") = Some (candidateText c).
Proof.
  intros Hc Ht. unfold candidateText in *.
  apply truthy_not_nullish in Ht.
  destruct (optProp_not_nullish _ _ Ht) as [H3 E4].
  destruct (optProp_not_nullish _ _ H3) as [H2 E3].
  destruct (optProp_not_nullish _ _ H2) as [H1 E2].
  destruct (optProp_not_nullish _ _ H1) as [H0 E1].
  rewrite E4, E3, E2, E1. rewrite E3, E2, E1 in H3. rewrite E2, E1 in H2.
  rewrite E1 in H1.
  set (c0 := getOwn c (index_key 0)) in *.
  set (content := getOwn c0 (lit "content")) in *.
  set (parts := getOwn content (lit "parts")) in *.
  set (p0 := getOwn parts (index_key 0)) in *.
  exists c0, content, parts, p0.
  unfold getProp. rewrite (truthy_not_nullish _ Hc), H0, H1, H2, H3.
  repeat split.
Qed.

(** The outcome of [extractText], test by test. *)
Lemma extractText_result (data : jsvalue) :
  result (extractText data)
  = if nullish data then Thrown TypeError
    else if directApiShape data
    then Returned (candidateText (getOwn data (lit "candidates")))
    else if relayTextShape data then Returned (getOwn data (lit "text"))
    else if relayResponseShape data
    then Returned (getOwn data (lit "response"))
    else Thrown (Error_ (lit "No analysis results received from Gemini")).
Proof.
  unfold directApiShape, relayTextShape, relayResponseShape, optProp.
  unfold extractText.
  assert (Hget : forall k,
            getProp data k
            = if nullish data then None else Some (getOwn data k))
    by reflexivity.
  unfold result, Eff.bind. rewrite !Hget.
  destruct (nullish data) eqn:Hn; [reflexivity|].
  unfold orThrow, ret at 1. cbv beta iota.
  destruct (truthy (getOwn data (lit "candidates"))) eqn:Hc; cbn [andb].
  - destruct (truthy (candidateText (getOwn data (lit "candidates")))) eqn:Ht.
    + destruct (candidate_chain _ Hc Ht)
        as (c0 & content & parts & p0 & E0 & E1 & E2 & E3 & E4).
      unfold ret. cbv beta iota. rewrite E0. cbv beta iota.
      rewrite E1. cbv beta iota. rewrite E2. cbv beta iota.
      rewrite E3. cbv beta iota. rewrite E4. reflexivity.
    + destruct (truthy (getOwn data (lit "text")));
        [reflexivity|].
      destruct (truthy (getOwn data (lit "response"))); reflexivity.
  - destruct (truthy (getOwn data (lit "text"))); [reflexivity|].
    destruct (truthy (getOwn data (lit "response"))); reflexivity.
Qed.

Lemma shape_not_nullish (data : jsvalue) :
  directApiShape data || relayTextShape data || relayResponseShape data = true ->
  nullish data = false.
Proof.
  unfold directApiShape, relayTextShape, relayResponseShape, optProp.
  destruct (nullish data); [discriminate | reflexivity].
Qed.

(** X12. [extractText] yields a text exactly when the answer has one of
    the three shapes, and what it yields is never falsy: never the empty
    string, null or undefined. *)
Theorem extractText_returns (data : jsvalue) :
  ((exists a, result (extractText data) = Returned a)
   <-> directApiShape data || relayTextShape data || relayResponseShape data
       = true)
  /\ (forall a, result (extractText data) = Returned a -> truthy a = true).
Proof.
  rewrite extractText_result. split.
  - split.
    + intros [a H]. destruct (nullish data) eqn:Hn; [discriminate|].
      destruct (directApiShape data); [reflexivity|].
      destruct (relayTextShape data); [reflexivity|].
      destruct (relayResponseShape data); [reflexivity | discriminate].
    + intros H. rewrite (shape_not_nullish _ H).
      destruct (directApiShape data); [eauto|].
      destruct (relayTextShape data); [eauto|].
      destruct (relayResponseShape data); [eauto | discriminate].
  - intros a. destruct (nullish data) eqn:Hn; [discriminate|].
    destruct (directApiShape data) eqn:H1.
    { intros [= <-]. unfold directApiShape, optProp in H1. rewrite Hn in H1.
      apply andb_true_iff in H1. tauto. }
    destruct (relayTextShape data) eqn:H2.
    { intros [= <-]. unfold relayTextShape, optProp in H2.
      now rewrite Hn in H2. }
    destruct (relayResponseShape data) eqn:H3; [|discriminate].
    intros [= <-]. unfold relayResponseShape, optProp in H3.
    now rewrite Hn in H3.
Qed.

(** X13. The three shapes are tried in order: the text of the first
    candidate wins over [data.text], which wins over [data.response]. *)
Theorem extractText_precedence (data : jsvalue) :
  (directApiShape data = true ->
   result (extractText data)
   = Returned (candidateText (getOwn data (lit "candidates"))))
  /\ (directApiShape data = false -> relayTextShape data = true ->
      result (extractText data) = Returned (getOwn data (lit "text")))
  /\ (directApiShape data = false -> relayTextShape data = false ->
      relayResponseShape data = true ->
      result (extractText data) = Returned (getOwn data (lit "response"))).
Proof.
  rewrite extractText_result. split; [|split].
  - intros H. rewrite shape_not_nullish by (now rewrite H). now rewrite H.
  - intros H1 H2. rewrite shape_not_nullish by (now rewrite H1, H2).
    now rewrite H1, H2.
  - intros H1 H2 H3. rewrite shape_not_nullish by (now rewrite H1, H2, H3).
    now rewrite H1, H2, H3.
Qed.

(** X14. How the remote client fails before any text is extracted: a
    rejected [fetch] or an unreadable body is thrown on as it is, a body that
    is not JSON is a SyntaxError, and the body [null] is a TypeError. *)
Theorem analyzeAnswer_transport_errors (request : AnalysisRequest.t) :
  (World.fetch w endpoint (requestBody request) = None ->
   result (analyzeAnswer request) = Thrown Rejected)
  /\ (forall response,
        World.fetch w endpoint (requestBody request) = Some response ->
        (Response.text response = None ->
         result (analyzeAnswer request) = Thrown Rejected)
        /\ (forall body,
              Response.ok response = true ->
              Response.text response = Some body ->
              (JSON_parse body = None ->
               result (analyzeAnswer request) = Thrown SyntaxError)
              /\ (JSON_parse body = Some JNull ->
                  result (analyzeAnswer request) = Thrown TypeError))).
Proof.
  rewrite analyzeAnswer_result. split.
  - intros ->. reflexivity.
  - intros response ->. split.
    + intros ->. destruct (negb (Response.ok response)); reflexivity.
    + intros body -> ->. cbn [negb]. cbv iota. split; intros ->; reflexivity.
Qed.

(** X15. How the remote client fails on what was extracted: a truthy value
    that is not a string (a number, an object, an array) is a TypeError,
    because it has no [trim], and a text that parses to [null] is a TypeError
    as well. *)
Theorem analyzeAnswer_type_errors
    (request : AnalysisRequest.t) (response : Response.t)
    (body : jsstring) (data : jsvalue) :
  World.fetch w endpoint (requestBody request) = Some response ->
  Response.ok response = true ->
  Response.text response = Some body ->
  JSON_parse body = Some data ->
  (forall a,
     result (extractText data) = Returned a -> isString a = false ->
     result (analyzeAnswer request) = Thrown TypeError)
  /\ (forall s,
        result (extractText data) = Returned (JStr s) ->
        JSON_parse (stripCodeFence s) = Some JNull ->
        result (analyzeAnswer request) = Thrown TypeError).
Proof.
  intros Hf Hok Hb Hd. rewrite analyzeAnswer_result, Hf, Hok, Hb, Hd.
  cbn [negb]. cbv iota. split.
  - intros a -> Ha. destruct a; try reflexivity. discriminate Ha.
  - intros s -> ->. reflexivity.
Qed.

(** X16. The remote client succeeds exactly when the answer has a success
    status, its body is JSON, the extracted value is a string, and that
    string, without its code fence, parses to a value that is not [null]
    (nor undefined, which no JSON text gives). Nothing else is asked of the
    parsed value: an array, a number or an object without any field of a
    report is accepted. *)
Theorem analyzeAnswer_succeeds_iff (request : AnalysisRequest.t) :
  (exists v, result (analyzeAnswer request) = Returned v)
  <-> (exists response body data s a,
         World.fetch w endpoint (requestBody request) = Some response
         /\ Response.ok response = true
         /\ Response.text response = Some body
         /\ JSON_parse body = Some data
         /\ result (extractText data) = Returned (JStr s)
         /\ JSON_parse (stripCodeFence s) = Some a
         /\ nullish a = false).
Proof.
  rewrite analyzeAnswer_result. split.
  - intros [v H].
    destruct (World.fetch w _ _) as [response|] eqn:Hf; [|discriminate].
    destruct (Response.ok response) eqn:Hok; cbn [negb] in H; cbv iota in H.
    2:{ destruct (Response.text response); discriminate. }
    destruct (Response.text response) as [body|] eqn:Hb; [|discriminate].
    destruct (JSON_parse body) as [data|] eqn:Hd; [|discriminate].
    destruct (result (extractText data)) as [x|] eqn:Hx; [|discriminate].
    destruct x; try discriminate.
    destruct (JSON_parse (stripCodeFence s)) as [a|] eqn:Ha; [|discriminate].
    exists response, body, data, s, a.
    repeat (split; [reflexivity || assumption|]).
    unfold overlay, result, Eff.bind, orThrow, getProp in H.
    destruct (nullish a); [discriminate H | reflexivity].
  - intros (response & body & data & s & a & Hf & Hok & Hb & Hd & Hx & Ha & Hn).
    rewrite Hf, Hok, Hb, Hd, Hx, Ha. cbn [negb]. cbv iota.
    unfold overlay, result, Eff.bind, orThrow, getProp.
    rewrite Hn. eexists. reflexivity.
Qed.

End RemoteMore.

Lemma extractText_returns_witness :
  (exists a,
     result (GeminiAnalysisService.extractText SampleMore.threeShapes)
     = Returned a)
  /\ truthy (JStr (lit "first")) = true.
Proof.
  split.
  - exact (proj2 (proj1 (extractText_returns SampleMore.threeShapes)) eq_refl).
  - exact (proj2 (extractText_returns SampleMore.threeShapes)
             (JStr (lit "first")) eq_refl).
Defined.

Lemma extractText_precedence_witness :
  result (GeminiAnalysisService.extractText SampleMore.threeShapes)
  = Returned (JStr (lit "first"))
  /\ result (GeminiAnalysisService.extractText
               (JObj [ (lit "response", JStr (lit "third"));
                       (lit "text", JStr (lit "second")) ]))
     = Returned (JStr (lit "second"))
  /\ result (GeminiAnalysisService.extractText
               (JObj [ (lit "response", JStr (lit "third"));
                       (lit "text", JStr []) ]))
     = Returned (JStr (lit "third")).
Proof.
  split; [|split].
  - exact (proj1 (extractText_precedence SampleMore.threeShapes) eq_refl).
  - exact (proj1 (proj2 (extractText_precedence
                           (JObj [ (lit "response", JStr (lit "third"));
                                   (lit "text", JStr (lit "second")) ])))
             eq_refl eq_refl).
  - exact (proj2 (proj2 (extractText_precedence
                           (JObj [ (lit "response", JStr (lit "third"));
                                   (lit "text", JStr []) ])))
             eq_refl eq_refl eq_refl).
Defined.

Lemma analyzeAnswer_transport_errors_witness :
  SampleMore.analyze SampleMore.unreachable Sample.hello = Thrown Rejected
  /\ SampleMore.analyze SampleMore.nullBody Sample.hello = Thrown TypeError
  /\ SampleMore.analyze (Sample.world (Sample.answers 200 (lit "<html>")))
       Sample.hello = Thrown SyntaxError.
Proof.
  split; [|split].
  - exact (proj1 (analyzeAnswer_transport_errors SampleMore.parse
                    Sample.prompt SampleMore.unreachable Sample.hello)
             eq_refl).
  - exact (proj2 (proj2 (proj2 (analyzeAnswer_transport_errors
                                  SampleMore.parse Sample.prompt
                                  SampleMore.nullBody Sample.hello)
                           _ eq_refl)
                    (lit "null") eq_refl eq_refl) eq_refl).
  - exact (proj1 (proj2 (proj2 (analyzeAnswer_transport_errors
                                  SampleMore.parse Sample.prompt
                                  (Sample.world
                                     (Sample.answers 200 (lit "<html>")))
                                  Sample.hello)
                           _ eq_refl)
                    (lit "<html>") eq_refl eq_refl) eq_refl).
Defined.

Lemma analyzeAnswer_type_errors_witness :
  SampleMore.analyze SampleMore.numberText Sample.hello = Thrown TypeError
  /\ SampleMore.analyze SampleMore.nullAnswer Sample.hello = Thrown TypeError.
Proof.
  split.
  - exact (proj1 (@analyzeAnswer_type_errors SampleMore.parse Sample.prompt
                    SampleMore.numberText Sample.hello _
                    (SampleMore.numberEnvelope (lit "text"))
                    (JObj [(lit "text", JNum 5%num)])
                    eq_refl eq_refl eq_refl eq_refl)
             (JNum 5%num) eq_refl eq_refl).
  - exact (proj2 (@analyzeAnswer_type_errors SampleMore.parse Sample.prompt
                    SampleMore.nullAnswer Sample.hello _
                    (Sample.envelope (lit "text") (lit "null"))
                    (JObj [(lit "text", JStr (lit "null"))])
                    eq_refl eq_refl eq_refl eq_refl)
             (lit "null") eq_refl eq_refl).
Defined.

Lemma analyzeAnswer_succeeds_iff_witness :
  exists v, SampleMore.analyze SampleMore.arrayAnswer Sample.hello = Returned v.
Proof.
  apply (proj2 (analyzeAnswer_succeeds_iff SampleMore.parse Sample.prompt
                  SampleMore.arrayAnswer Sample.hello)).
  exists {| Response.ok := true; Response.status := 200%N;
            Response.text := Some (Sample.envelope (lit "text") (lit "[]")) |},
         (Sample.envelope (lit "text") (lit "[]")),
         (JObj [(lit "text", JStr (lit "[]"))]), (lit "[]"), (JArr []).
  repeat split.
Defined.

(** ** The orchestrator, further *)

Section OrchestratorMore.

Import GeminiAnalysisService.
Import StaticAnalysisService.

Variable JSON_parse : jsstring -> option jsvalue.
Variable generateAnalysisPrompt :
  InterviewQuestion.t -> jsstring -> number -> number -> jsstring.
Variable w : World.t.

Local Abbreviation remote :=
  (GeminiAnalysisService.analyzeAnswer JSON_parse generateAnalysisPrompt w).
Local Abbreviation processAudioResponse :=
  (processAudioResponse JSON_parse generateAnalysisPrompt w).

(** X17. The remote client sends exactly one request, whatever comes of it
    (there is no retry). It goes to the relay, or to the direct API with a
    configured key that starts with [AIza]; and a first key that is set but
    does not start with [AIza] sends it to the relay, whatever the second key
    is. *)
Theorem analyzeAnswer_one_fetch (request : AnalysisRequest.t) :
  exists url,
    calls (remote request) = [Call_fetch url]
    /\ (url = World.GEMINI_PROXY_URL w
        \/ exists k,
             (World.VITE_GEMINI_API_KEY w = Some k
              \/ World.VITE_GOOGLE_SPEECH_API_KEY w = Some k)
             /\ startsWith k (lit "AIza") = true
             /\ url = directApiBase ++ k)
    /\ (forall k1,
          World.VITE_GEMINI_API_KEY w = Some k1 -> k1 <> [] ->
          startsWith k1 (lit "AIza") = false ->
          url = World.GEMINI_PROXY_URL w).
Proof.
  exists (endpoint w). split; [apply analyzeAnswer_calls|].
  unfold endpoint, useDirectApi, directUrl, GEMINI_KEY, env_or, directApiBase.
  split.
  - destruct (World.VITE_GEMINI_API_KEY w) as [[|c k]|] eqn:H1.
    + destruct (World.VITE_GOOGLE_SPEECH_API_KEY w) as [[|c k]|] eqn:H2;
        try (now left).
      destruct (startsWith (c :: k) (lit "AIza")) eqn:Hs; [|now left].
      right. exists (c :: k). rewrite <- !app_assoc. auto.
    + destruct (startsWith (c :: k) (lit "AIza")) eqn:Hs; [|now left].
      right. exists (c :: k). rewrite <- !app_assoc. auto.
    + destruct (World.VITE_GOOGLE_SPEECH_API_KEY w) as [[|c k]|] eqn:H2;
        try (now left).
      destruct (startsWith (c :: k) (lit "AIza")) eqn:Hs; [|now left].
      right. exists (c :: k). rewrite <- !app_assoc. auto.
  - intros k1 -> Hne Hs. destruct k1 as [|c k]; [now elim Hne|].
    now rewrite Hs.
Qed.

(** X18. When the request carries both the blob and the level statistics
    and the fallback is taken, the report is the static analysis of the
    metrics extracted from the audio, and the legacy method of the static
    service is not called. *)
Theorem processAudioResponse_audio_fallback
    (request : AnalysisRequest.t) (audioBlob : Blob.t)
    (audioLevelData : AudioLevelData.t) :
  AnalysisRequest.audioBlob request = Some audioBlob ->
  AnalysisRequest.audioLevelData request = Some audioLevelData ->
  trim (AnalysisRequest.transcript request) = []
  \/ (exists e, result (remote request) = Thrown e) ->
  result (processAudioResponse request)
  = Returned
      (Report.to_js
         (generateStaticAnalysis
            (analyzeAudioMetrics audioBlob
               (AnalysisRequest.audioDuration request)
               (AnalysisRequest.transcript request) audioLevelData)))
  /\ ~ In Call_static_analyzeAnswer (calls (processAudioResponse request)).
Proof.
  intros Hb Hl Hfall. unfold result, calls.
  rewrite processAudioResponse_run.
  unfold fallbackReport, fallbackCalls, eagerCalls, eagerMetrics.
  rewrite Hb, Hl.
  assert (Hno : forall l1 l2 : list event,
            l1 = [Call_analyzeAudioMetrics] ->
            l2 = [Call_gemini_analyzeAnswer; Call_fetch (endpoint w)] \/ l2 = [] ->
            ~ In Call_static_analyzeAnswer
                (l1 ++ l2 ++ [Call_generateStaticAnalysis])).
  { intros l1 l2 -> [-> | ->] H; simpl in H;
      repeat destruct H as [H|H]; discriminate || auto. }
  destruct (0 <? List.length (trim (AnalysisRequest.transcript request)))
    eqn:Hlen.
  - destruct Hfall as [Hempty | [e He]].
    + rewrite Hempty in Hlen. discriminate.
    + rewrite He. cbn [fst snd]. split; [reflexivity|].
      apply Hno; auto.
  - cbn [fst snd]. split; [reflexivity|]. apply (Hno _ []); auto.
Qed.

(** X19. How often the orchestrator calls what: the remote client and
    [fetch] once when the trimmed transcript is not empty and never
    otherwise; the scorer once, unless the remote client was called and
    returned, and then never; the metrics extractor at most once. *)
Theorem processAudioResponse_call_counts (request : AnalysisRequest.t) :
  let tr := calls (processAudioResponse request) in
  let attempted :=
    0 <? List.length (trim (AnalysisRequest.transcript request)) in
  countCalls isRemoteCall tr = (if attempted then 1 else 0)
  /\ countCalls isFetch tr = (if attempted then 1 else 0)
  /\ countCalls isScorerCall tr
     = (if attempted
        then match result (remote request) with
             | Returned _ => 0
             | Thrown _ => 1
             end
        else 1)
  /\ countCalls isExtractorCall tr <= 1.
Proof.
  cbv zeta. unfold calls. rewrite processAudioResponse_run.
  unfold fallbackCalls, eagerCalls.
  destruct (0 <? List.length (trim (AnalysisRequest.transcript request)));
    [destruct (result (remote request))|];
    destruct (eagerMetrics request); cbn; repeat split; lia.
Qed.

(** X20. Without raw audio the fallback score is 0 exactly for a blank
    transcript: when the remote client was tried and failed, the transcript
    has a word, so the report scores 20 below ten seconds and 50 otherwise
    and names the matching weakness. *)
Theorem processAudioResponse_transcript_fallback_score
    (request : AnalysisRequest.t) :
  eagerMetrics request = None ->
  (trim (AnalysisRequest.transcript request) = [] ->
   exists v,
     result (processAudioResponse request) = Returned v
     /\ getOwn v (lit "overallScore") = JNum 0%num
     /\ getOwn (getOwn v (lit "feedback")) (lit "weaknesses")
        = JArr [JStr (lit "No voice detected")])
  /\ (forall e,
        trim (AnalysisRequest.transcript request) <> [] ->
        result (remote request) = Thrown e ->
        exists v,
          result (processAudioResponse request) = Returned v
          /\ getOwn v (lit "overallScore")
             = JNum (if Num.lt (AnalysisRequest.audioDuration request) 10%num
                     then 20%num else 50%num)
          /\ getOwn (getOwn v (lit "feedback")) (lit "weaknesses")
             = JArr [JStr (if Num.lt (AnalysisRequest.audioDuration request)
                                    10%num
                           then lit "Response is very short"
                           else lit "AI analysis temporarily unavailable")]).
Proof.
  intros Hnone. unfold result at 1 3.
  rewrite processAudioResponse_run.
  unfold fallbackReport. rewrite Hnone.
  unfold transcriptOnlyMetrics, generateStaticAnalysis.
  cbn [AudioMetrics.duration AudioMetrics.hasVoice AudioMetrics.transcript].
  rewrite of_nat_positive, <- trim_nonEmpty_countWords.
  split.
  - intros Hblank. rewrite Hblank. cbn [List.length Nat.ltb Nat.leb fst].
    eexists. split; [reflexivity|]. split; reflexivity.
  - intros e Hne He. rewrite He.
    destruct (trim (AnalysisRequest.transcript request)) as [|c t];
      [now elim Hne|].
    cbn [List.length Nat.ltb Nat.leb fst negb].
    eexists. split; [reflexivity|].
    destruct (Num.lt (AnalysisRequest.audioDuration request) 10%num);
      split; reflexivity.
Qed.

End OrchestratorMore.

(** X21. The fallback does not look at the failure: whatever the remote
    client throws, with whatever parser, prompt and world, the orchestrator
    returns the same report for the same request. *)
Theorem processAudioResponse_failure_blind
    (parse1 parse2 : jsstring -> option jsvalue)
    (prompt1 prompt2 :
       InterviewQuestion.t -> jsstring -> number -> number -> jsstring)
    (w1 w2 : World.t) (request : AnalysisRequest.t) (e1 e2 : error) :
  result (GeminiAnalysisService.analyzeAnswer parse1 prompt1 w1 request)
  = Thrown e1 ->
  result (GeminiAnalysisService.analyzeAnswer parse2 prompt2 w2 request)
  = Thrown e2 ->
  result (GeminiAnalysisService.processAudioResponse parse1 prompt1 w1 request)
  = result (GeminiAnalysisService.processAudioResponse parse2 prompt2 w2
              request).
Proof.
  intros H1 H2. unfold result. rewrite !processAudioResponse_run.
  fold (result (GeminiAnalysisService.analyzeAnswer parse1 prompt1 w1 request)).
  fold (result (GeminiAnalysisService.analyzeAnswer parse2 prompt2 w2 request)).
  rewrite H1, H2.
  destruct (0 <? List.length (trim (AnalysisRequest.transcript request)));
    reflexivity.
Qed.

Lemma analyzeAnswer_one_fetch_witness :
  calls (GeminiAnalysisService.analyzeAnswer Sample.parse Sample.prompt
           SampleMore.shadowedKey Sample.hello)
  = [Call_fetch (lit "/api/gemini-proxy")].
Proof.
  destruct (analyzeAnswer_one_fetch Sample.parse Sample.prompt SampleMore.shadowedKey
              Sample.hello) as (url & Hcalls & _ & Hrelay).
  rewrite Hcalls. f_equal. f_equal.
  apply (Hrelay (lit "sk-123")); [reflexivity | discriminate | reflexivity].
Defined.

Lemma processAudioResponse_audio_fallback_witness :
  exists v,
    result (Sample.orchestrate Sample.serverError
              (SampleMore.recorded [] 12%num)) = Returned v
    /\ getOwn v (lit "overallScore") = JNum 50%num
    /\ getOwn v (lit "transcript")
       = JStr (lit "[Voice detected but transcript unavailable]").
Proof.
  eexists. split.
  - exact (proj1 (@processAudioResponse_audio_fallback Sample.parse
                    Sample.prompt Sample.serverError
                    (SampleMore.recorded [] 12%num) _ _ eq_refl eq_refl
                    (or_introl eq_refl))).
  - split; reflexivity.
Defined.

Lemma processAudioResponse_transcript_fallback_score_witness :
  (exists v,
     result (Sample.orchestrate Sample.serverError Sample.blank) = Returned v
     /\ getOwn v (lit "overallScore") = JNum 0%num)
  /\ (exists v,
        result (Sample.orchestrate Sample.serverError Sample.hello)
        = Returned v
        /\ getOwn v (lit "overallScore") = JNum 50%num).
Proof.
  split.
  - destruct (proj1 (processAudioResponse_transcript_fallback_score
                       Sample.parse Sample.prompt Sample.serverError
                       Sample.blank eq_refl) eq_refl)
      as (v & Hv & Hs & _).
    exists v. split; assumption.
  - assert (Hne : trim (AnalysisRequest.transcript Sample.hello) <> [])
      by discriminate.
    destruct (proj2 (processAudioResponse_transcript_fallback_score
                       Sample.parse Sample.prompt Sample.serverError
                       Sample.hello eq_refl) _ Hne eq_refl)
      as (v & Hv & Hs & _).
    exists v. split; assumption.
Defined.

Lemma processAudioResponse_failure_blind_witness :
  result (Sample.orchestrate Sample.serverError Sample.hello)
  = result (SampleMore.orchestrate SampleMore.unreachable Sample.hello).
Proof.
  exact (@processAudioResponse_failure_blind Sample.parse SampleMore.parse
           Sample.prompt Sample.prompt Sample.serverError
           SampleMore.unreachable Sample.hello _ _ eq_refl eq_refl).
Defined.

(** ** Code fences, further *)

Section FenceMore.

Import GeminiAnalysisService.

Lemma trimStart_spaces (ws x : jsstring) :
  forallb is_space ws = true -> trimStart (ws ++ x) = trimStart x.
Proof.
  induction ws as [|c ws IH]; simpl; [reflexivity|].
  intros H. apply andb_true_iff in H. destruct H as [Hc Hws].
  rewrite Hc. now apply IH.
Qed.

Lemma trimEnd_spaces (x ws : jsstring) :
  forallb is_space ws = true -> trimEnd (x ++ ws) = trimEnd x.
Proof.
  induction ws as [|c ws IH] using rev_ind; intros H.
  - now rewrite app_nil_r.
  - rewrite forallb_app in H. apply andb_true_iff in H.
    destruct H as [Hws Hc]. simpl in Hc. rewrite andb_true_r in Hc.
    rewrite app_assoc, trimEnd_snoc, Hc. now apply IH.
Qed.

(** White space around a text that starts with a back quote and ends with a
    fence is all that [trim] removes. *)
Lemma trim_around_fence (ws1 ws2 body : jsstring) :
  forallb is_space ws1 = true -> forallb is_space ws2 = true ->
  trim (ws1 ++ (96%N :: body ++ [LF] ++ lit "```") ++ ws2)
  = 96%N :: body ++ [LF] ++ lit "```".
Proof.
  intros H1 H2. unfold trim. rewrite trimStart_spaces by assumption.
  change (trimStart ((96%N :: body ++ [LF] ++ lit "```") ++ ws2))
    with ((96%N :: body ++ [LF] ++ lit "```") ++ ws2).
  rewrite trimEnd_spaces by assumption.
  change (96%N :: body ++ [LF] ++ lit "```")
    with ((96%N :: body) ++ [LF] ++ lit "```").
  apply trimEnd_fence.
Qed.

(** X22. A fenced text is unwrapped to its inner text, with the marker
    [```json] as with the bare marker [```], and whatever white space stands
    before and after the fence. *)
Theorem stripCodeFence_unwraps (ws1 ws2 s : jsstring) :
  forallb is_space ws1 = true -> forallb is_space ws2 = true ->
  stripCodeFence (ws1 ++ fenced s ++ ws2) = s
  /\ stripCodeFence (ws1 ++ plainFenced s ++ ws2) = s.
Proof.
  intros H1 H2. unfold stripCodeFence. split.
  - change (fenced s)
      with (96%N :: (lit "``json" ++ [LF] ++ s) ++ [LF] ++ lit "```").
    rewrite trim_around_fence by assumption.
    unfold removeCodeFence.
    change (startsWith (96%N :: (lit "``json" ++ [LF] ++ s) ++ [LF] ++ lit "```")
              (lit "```json")) with true.
    cbv iota.
    change (dropOpeningFence (lit "```json")
              (96%N :: (lit "``json" ++ [LF] ++ s) ++ [LF] ++ lit "```"))
      with (s ++ [LF] ++ lit "```").
    apply dropClosingFence_fence.
  - change (plainFenced s)
      with (96%N :: (lit "``" ++ [LF] ++ s) ++ [LF] ++ lit "```").
    rewrite trim_around_fence by assumption.
    unfold removeCodeFence.
    change (startsWith (96%N :: (lit "``" ++ [LF] ++ s) ++ [LF] ++ lit "```")
              (lit "```json")) with false.
    change (startsWith (96%N :: (lit "``" ++ [LF] ++ s) ++ [LF] ++ lit "```")
              (lit "```")) with true.
    cbv iota.
    change (dropOpeningFence (lit "```")
              (96%N :: (lit "``" ++ [LF] ++ s) ++ [LF] ++ lit "```"))
      with (s ++ [LF] ++ lit "```").
    apply dropClosingFence_fence.
Qed.

End FenceMore.

Lemma stripCodeFence_unwraps_witness :
  GeminiAnalysisService.stripCodeFence
    ([10; 32]%N ++ plainFenced Sample.answerText ++ [10; 10]%N)
  = Sample.answerText.
Proof.
  exact (proj2 (@stripCodeFence_unwraps [10; 32]%N [10; 10]%N
                  Sample.answerText eq_refl eq_refl)).
Defined.

Section FenceTruncated.

Import GeminiAnalysisService.

(** Either [a] is the back quote, or a match on it takes its default
    branch. *)
Ltac split96 a :=
  destruct (N.eq_dec a 96) as [->|?];
  [| destruct a as [|?p]; [reflexivity|];
     repeat (match goal with q : positive |- _ => destruct q end;
             try reflexivity; try congruence)].

(** Without a fence at its end a text keeps its end. *)
Lemma dropClosingFence_none (s : jsstring) :
  endsWith s (lit "```") = false -> dropClosingFence s = s.
Proof.
  unfold endsWith, dropClosingFence.
  change (rev (lit "```")) with [96; 96; 96]%N.
  destruct (rev s) as [|a l]; [reflexivity|]. intros H. split96 a.
  destruct l as [|b l]; [reflexivity|]. split96 b.
  destruct l as [|c l]; [reflexivity|]. split96 c.
  cbn in H. destruct l; discriminate H.
Qed.

(** X23. An answer cut off before its closing fence still loses the
    opening fence: when the text after [```json\n] ends with a unit that is
    not white space and not with a fence, it is kept as it is. *)
Theorem stripCodeFence_unterminated (s : jsstring) (c : unit16) :
  is_space c = false ->
  endsWith (s ++ [c]) (lit "```") = false ->
  stripCodeFence (lit "```json" ++ [LF] ++ s ++ [c]) = s ++ [c].
Proof.
  intros Hc Hend. unfold stripCodeFence, trim.
  change (trimStart (lit "```json" ++ [LF] ++ s ++ [c]))
    with (lit "```json" ++ [LF] ++ s ++ [c]).
  replace (lit "```json" ++ [LF] ++ s ++ [c])
    with ((lit "```json" ++ [LF] ++ s) ++ [c])
    by (now rewrite <- !app_assoc).
  rewrite trimEnd_snoc, Hc.
  unfold removeCodeFence.
  change (startsWith ((lit "```json" ++ [LF] ++ s) ++ [c]) (lit "```json"))
    with true.
  cbv iota.
  change (dropOpeningFence (lit "```json")
            ((lit "```json" ++ [LF] ++ s) ++ [c]))
    with (s ++ [c]).
  now apply dropClosingFence_none.
Qed.

End FenceTruncated.

Lemma stripCodeFence_unterminated_witness :
  GeminiAnalysisService.stripCodeFence
    (lit "```json" ++ [LF] ++ lit "{" ++ Sample.quoted (lit "overallScore")
     ++ lit ":8" ++ [48%N])
  = lit "{" ++ Sample.quoted (lit "overallScore") ++ lit ":8" ++ [48%N].
Proof.
  exact (@stripCodeFence_unterminated
           (lit "{" ++ Sample.quoted (lit "overallScore") ++ lit ":8")
           48%N eq_refl eq_refl).
Defined.

(** ** The voice library *)

Section LibraryFacts.

Import VoiceLibrary.

Lemma voiceFiles_withDuration (audioDurations : durations) :
  voiceFiles audioDurations = map (withDuration audioDurations) (voiceFiles []).
Proof. reflexivity. Qed.

Lemma voiceFiles_ids (audioDurations : durations) :
  map VoiceFile.id (voiceFiles audioDurations)
  = map VoiceFile.id (voiceFiles []).
Proof. reflexivity. Qed.

Lemma NoDup_by_nodup (l : list jsstring) :
  nodup (list_eq_dec N.eq_dec) l = l -> NoDup l.
Proof. intros <-. apply NoDup_nodup. Qed.

Lemma voiceFiles_ids_NoDup (audioDurations : durations) :
  NoDup (map VoiceFile.id (voiceFiles audioDurations)).
Proof. apply NoDup_by_nodup. vm_compute. reflexivity. Qed.

(** X24. The library has 22 files, and no two of them share an id or a
    file name, in every state of the durations. Ids are the keys of the
    durations and of the rows, names are the addresses of the audio. *)
Theorem voiceFiles_distinct (audioDurations : durations) :
  List.length (voiceFiles audioDurations) = 22
  /\ NoDup (map VoiceFile.id (voiceFiles audioDurations))
  /\ NoDup (map VoiceFile.name (voiceFiles audioDurations)).
Proof.
  split; [reflexivity|]. split; apply NoDup_by_nodup; vm_compute; reflexivity.
Qed.

Lemma getDuration_set_same (k : jsstring) (v : number) (d : durations) :
  getDuration k (setDuration k v d) = Some v.
Proof.
  induction d as [|[k' v'] d IH]; simpl.
  - now rewrite eqb_refl.
  - destruct (Str.eqb k k') eqn:E; simpl.
    + now rewrite eqb_refl.
    + now rewrite E.
Qed.

Lemma getDuration_set_other (k k0 : jsstring) (v : number) (d : durations) :
  k0 <> k -> getDuration k0 (setDuration k v d) = getDuration k0 d.
Proof.
  intros Hne. induction d as [|[k' v'] d IH]; simpl.
  - now rewrite (eqb_neq Hne).
  - destruct (Str.eqb k k') eqn:E; simpl.
    + apply eqb_eq in E. subst k'. now rewrite (eqb_neq Hne).
    + now rewrite IH.
Qed.

Lemma selected_rows_absent (id : jsstring) (l : list VoiceFile.t) :
  ~ In id (map VoiceFile.id l) ->
  filter (fun f => Str.eqb id (VoiceFile.id f)) l = [].
Proof.
  induction l as [|f l IH]; [reflexivity|]. cbn [map filter]. intros Hno.
  rewrite eqb_neq by (intros E; apply Hno; now left).
  apply IH. intros H. apply Hno. now right.
Qed.

(** In a list without two equal ids, exactly one row has an id that is
    there. *)
Lemma selected_rows_present (id : jsstring) (l : list VoiceFile.t) :
  NoDup (map VoiceFile.id l) -> In id (map VoiceFile.id l) ->
  List.length (filter (fun f => Str.eqb id (VoiceFile.id f)) l) = 1.
Proof.
  induction l as [|f l IH]; [intros _ []|].
  cbn [map filter]. intros Hnd Hin.
  inversion Hnd as [|x xs Hnotin Hnd']. subst.
  destruct (Str.eqb id (VoiceFile.id f)) eqn:E.
  - apply eqb_eq in E. subst id.
    now rewrite (selected_rows_absent _ _ Hnotin).
  - destruct Hin as [Heq|Hin]; [|now apply IH].
    subst id. now rewrite eqb_refl in E.
Qed.

(** X25. With a selected file whose id is in the library, exactly one row
    is marked as selected, and a row is marked exactly when it has that id;
    without a selected file no row is marked. *)
Theorem selected_row_unique
    (audioDurations : durations) (selectedFile : VoiceFile.t) :
  In (VoiceFile.id selectedFile) (map VoiceFile.id (voiceFiles audioDurations)) ->
  List.length (filter (isSelected (Some selectedFile))
                      (voiceFiles audioDurations)) = 1
  /\ (forall file,
        selectLabel (Some selectedFile) file = lit "Selected"
        <-> VoiceFile.id file = VoiceFile.id selectedFile)
  /\ filter (isSelected None) (voiceFiles audioDurations) = [].
Proof.
  intros Hin. split; [|split].
  - unfold isSelected.
    exact (selected_rows_present _ _ (voiceFiles_ids_NoDup audioDurations)
             Hin).
  - intros file. unfold selectLabel, isSelected.
    destruct (Str.eqb (VoiceFile.id selectedFile) (VoiceFile.id file)) eqn:E.
    + apply eqb_eq in E. split; [now intros _ | reflexivity].
    + split; [discriminate|]. intros Heq. rewrite Heq, eqb_refl in E.
      discriminate.
  - reflexivity.
Qed.

Section Loading.

Variable loadMetadata : jsstring -> metadata.

(** What the loop leaves in the state: the duration of every file that
    loaded, and what was there before under every other id. *)
Lemma loadLoop_spec (files : list VoiceFile.t) :
  NoDup (map VoiceFile.id files) ->
  forall acc,
    (forall f, In f files -> loadMetadata (audioUrl f) <> Stalled) ->
    exists m,
      loadLoop loadMetadata files acc = Some m
      /\ (forall f, In f files ->
            getDuration (VoiceFile.id f) m
            = match loadMetadata (audioUrl f) with
              | Loaded d => Some d
              | _ => getDuration (VoiceFile.id f) acc
              end)
      /\ (forall k, ~ In k (map VoiceFile.id files) ->
            getDuration k m = getDuration k acc).
Proof.
  induction files as [|f files IH]; intros Hnd acc Hok.
  - exists acc. split; [reflexivity|]. split; [intros f []|reflexivity].
  - cbn [map] in Hnd. inversion Hnd as [|x xs Hnotin Hnd']. subst.
    cbn [loadLoop]. fold (audioUrl f).
    assert (Hf := Hok f (or_introl eq_refl)).
    assert (Hrest : forall g, In g files -> loadMetadata (audioUrl g) <> Stalled)
      by (intros g Hg; apply Hok; now right).
    destruct (loadMetadata (audioUrl f)) as [d| |] eqn:Ef; [| |now elim Hf].
    + destruct (IH Hnd' (setDuration (VoiceFile.id f) d acc) Hrest)
        as (m & Hm & Hin & Hout).
      exists m. split; [exact Hm|]. split.
      * intros g [<-|Hg].
        -- rewrite Ef, (Hout _ Hnotin). apply getDuration_set_same.
        -- rewrite (Hin g Hg).
           destruct (loadMetadata (audioUrl g)); try reflexivity;
             apply getDuration_set_other; intros E; apply Hnotin;
             rewrite <- E; now apply in_map.
      * intros k Hk. rewrite Hout by (intros H; apply Hk; now right).
        apply getDuration_set_other. intros E. apply Hk. now left.
    + destruct (IH Hnd' acc Hrest) as (m & Hm & Hin & Hout).
      exists m. split; [exact Hm|]. split.
      * intros g [<-|Hg]; [rewrite Ef; now apply Hout | now apply Hin].
      * intros k Hk. apply Hout. intros H. apply Hk. now right.
Qed.

Lemma loadLoop_stalled (files : list VoiceFile.t) :
  forall acc f,
    In f files -> loadMetadata (audioUrl f) = Stalled ->
    loadLoop loadMetadata files acc = None.
Proof.
  induction files as [|g files IH]; intros acc f Hin Hf; [now elim Hin|].
  cbn [loadLoop]. fold (audioUrl g).
  destruct Hin as [->|Hin]; [now rewrite Hf|].
  destruct (loadMetadata (audioUrl g)); eauto.
Qed.

(** X26. Loading the durations on mount: when every file either loads or
    fails, the state is set, and afterwards a file of the library has a
    duration exactly when its metadata loaded, namely the duration of its
    own audio, so that one failing file does not affect the others; no other
    key is set. When the metadata of one file never settles, the state is
    never set, not even for the files that loaded before. *)
Theorem loadDurations_sets
    : ((forall f, In f (voiceFiles []) -> loadMetadata (audioUrl f) <> Stalled) ->
       exists m,
         loadDurations loadMetadata = Some m
         /\ (forall f, In f (voiceFiles m) ->
               VoiceFile.duration f
               = match loadMetadata (audioUrl f) with
                 | Loaded d => Some d
                 | _ => None
                 end)
         /\ (forall k, ~ In k (map VoiceFile.id (voiceFiles [])) ->
               getDuration k m = None))
      /\ ((exists f, In f (voiceFiles []) /\ loadMetadata (audioUrl f) = Stalled) ->
          loadDurations loadMetadata = None).
Proof.
  split.
  - intros Hok.
    destruct (@loadLoop_spec (voiceFiles []) (voiceFiles_ids_NoDup []) [] Hok)
      as (m & Hm & Hin & Hout).
    exists m. split; [exact Hm|]. split; [|exact Hout].
    intros f Hf. rewrite voiceFiles_withDuration in Hf.
    apply in_map_iff in Hf. destruct Hf as (f0 & <- & Hf0).
    cbn [withDuration VoiceFile.duration]. rewrite (Hin f0 Hf0).
    change (audioUrl (withDuration m f0)) with (audioUrl f0).
    destruct (loadMetadata (audioUrl f0)); reflexivity.
  - intros (f & Hf & Hs). exact (@loadLoop_stalled _ [] f Hf Hs).
Qed.

End Loading.

End LibraryFacts.

Lemma selected_row_unique_witness :
  List.length
    (filter (VoiceLibrary.isSelected
               (Some (VoiceLibrary.voiceFile [] "the-club-funds"
                        "The Club Funds (1).mp3" "The Club Funds"
                        "Financial Ethics" VoiceLibrary.Easy
                        "Handling organizational finances and transparency")))
            (VoiceLibrary.voiceFiles [])) = 1.
Proof.
  refine (proj1 (@selected_row_unique [] _ _)).
  cbn [map VoiceLibrary.voiceFiles VoiceLibrary.voiceFile VoiceLibrary.VoiceFile.id].
  do 4 right. left. reflexivity.
Defined.

Lemma firstFails_settles (f : VoiceLibrary.VoiceFile.t) :
  SampleMore.firstFails (audioUrl f) <> VoiceLibrary.Stalled.
Proof.
  unfold SampleMore.firstFails.
  destruct (Str.eqb _ _); discriminate.
Qed.

Lemma loadDurations_sets_witness :
  exists m,
    VoiceLibrary.loadDurations SampleMore.firstFails = Some m
    /\ (forall f, In f (VoiceLibrary.voiceFiles m) ->
          VoiceLibrary.VoiceFile.duration f
          = match SampleMore.firstFails (audioUrl f) with
            | VoiceLibrary.Loaded d => Some d
            | _ => None
            end)
    /\ (forall k,
          ~ In k (map VoiceLibrary.VoiceFile.id (VoiceLibrary.voiceFiles [])) ->
          VoiceLibrary.getDuration k m = None).
Proof.
  exact (proj1 (loadDurations_sets SampleMore.firstFails)
           (fun f _ => firstFails_settles f)).
Defined.

(** ** The duration shown for a file *)

Section DurationFacts.

Import VoiceLibrary.

Variable Number_toString : number -> jsstring.





(** A falsy Number and [NaN] are shown as the placeholder, and replacing a
    falsy Number by 0 first changes nothing. *)
Lemma formatDuration_or_zero (d : number) :
  formatDuration Number_toString (if Num.truthy d then d else 0%num)
  = formatDuration Number_toString d.
Proof.
  destruct (Num.truthy d) eqn:E; [reflexivity|].
  unfold formatDuration. rewrite E. reflexivity.
Qed.


(** X28. What the list shows as the duration of a file. Before the durations
    are loaded every row shows the placeholder. Once they are, and whatever
    [String(n)] does, a row shows the formatted duration of its own audio
    when the metadata loaded, and the placeholder when it failed; a duration
    of 0 or [NaN] is shown as the placeholder too. *)
Theorem displayedDuration_after_load (loadMetadata : jsstring -> metadata) :
  (forall file, displayedDuration Number_toString [] file = lit "--:--")
  /\ formatDuration Number_toString 0%num = lit "--:--"
  /\ formatDuration Number_toString NaN = lit "--:--"
  /\ ((forall f, In f (voiceFiles []) -> loadMetadata (audioUrl f) <> Stalled) ->
      exists m,
        loadDurations loadMetadata = Some m
        /\ forall f, In f (voiceFiles m) ->
             displayedDuration Number_toString m f
             = match loadMetadata (audioUrl f) with
               | Loaded d => formatDuration Number_toString d
               | _ => lit "--:--"
               end).
Proof.
  split; [reflexivity|]. split; [reflexivity|]. split; [reflexivity|].
  intros Hok.
  destruct (@loadLoop_spec loadMetadata (voiceFiles [])
              (voiceFiles_ids_NoDup []) [] Hok) as (m & Hm & Hin & _).
  exists m. split; [exact Hm|].
  intros f Hf. rewrite voiceFiles_withDuration in Hf.
  apply in_map_iff in Hf. destruct Hf as (f0 & <- & Hf0).
  unfold displayedDuration. cbn [withDuration VoiceFile.id].
  rewrite (Hin f0 Hf0).
  change (audioUrl (withDuration m f0)) with (audioUrl f0).
  destruct (loadMetadata (audioUrl f0)) as [d| |];
    [apply formatDuration_or_zero | reflexivity | reflexivity].
Qed.

End DurationFacts.



Lemma displayedDuration_after_load_witness :
  exists m,
    VoiceLibrary.loadDurations SampleMore.firstFails = Some m
    /\ forall f, In f (VoiceLibrary.voiceFiles m) ->
         VoiceLibrary.displayedDuration SampleMore.toString m f
         = match SampleMore.firstFails (audioUrl f) with
           | VoiceLibrary.Loaded d =>
               VoiceLibrary.formatDuration SampleMore.toString d
           | _ => lit "--:--"
           end.
Proof.
  exact (proj2 (proj2 (proj2
           (@displayedDuration_after_load SampleMore.toString
              SampleMore.firstFails)))
           (fun f _ => firstFails_settles f)).
Defined.

(** ** Instances on a sample *)

Lemma countWords_trim_witness :
  trim (lit "  ") = [] /\ countWords (lit "  ") = 0.
Proof.
  split; [reflexivity|].
  exact (proj1 (proj2 (countWords_trim (lit "  "))) eq_refl).
Defined.

Lemma generateStaticAnalysis_weakness_witness :
  Feedback.strengths
    (AnswerAnalysis.feedback
       (StaticAnalysisService.generateStaticAnalysis
          (Sample.metrics_of 5%num false))) = [].
Proof.
  exact (proj2 (proj1 (proj2 (proj2
           (generateStaticAnalysis_weakness (Sample.metrics_of 5%num false)))))
           eq_refl).
Defined.

Lemma quickTips_membership_witness :
  In (lit "Aim for a longer response")
     (QuickFeedback.quickTips
        (StaticAnalysisService.generateQuickFeedback (lit "one two") 12%num)).
Proof.
  exact (proj2 (proj1 (quickTips_membership (lit "one two") 12%num))
           (conj eq_refl eq_refl)).
Defined.
